(** * Event Board: the authentication and session contract

    A shallow embedding of [core/config.py], [core/security.py],
    [api/deps.py], [schemas/auth.py], [api/routes/auth.py] and the
    HTML forms of [main.py], together with the properties of the credential hasher, the token codec, the
    session resolvers and the account service.

    Conventions of the embedding.
    - A Python call that may raise returns a [result]; exceptions are the
      values of [exn].
    - Code that awaits the Prisma client runs in the state monad [DB] over
      the user table.
    - The wall clock ([datetime.now(timezone.utc)]) is the explicit
      argument [now], in whole seconds since the epoch, which is the
      resolution of the [exp] claim; a [timedelta] is a number of seconds.
      A [datetime] ranges over the years 1 to 9999, and adding a
      [timedelta] to it raises [OverflowError] outside that range.
    - The third-party libraries (python-jose, passlib) are interfaces
      ([Jose], [CryptContext]); their contracts are stated as propositions
      and assumed only by the theorems that need them.  Reference
      implementations of both interfaces show the contracts satisfiable. *)

From Stdlib Require Import ZArith String Ascii List Bool Lia.
From stdpp Require Import base option countable list gmap strings.

Local Open Scope string_scope.
Local Open Scope list_scope.
Local Open Scope Z_scope.

(** ** Python values and exceptions *)

(** Why python-jose rejected a token.  All of them are raised as [JWTError]
    or one of its subclasses ([ExpiredSignatureError], [JWTClaimsError]). *)
Inductive jwt_failure : Type :=
| BadSignature
| WrongAlgorithm
| Expired
| Malformed
| BadClaims.

(** The exceptions that reach the code under study. *)
Inductive exn : Type :=
| HTTPException (status_code : Z) (detail : string)
                (headers : option (list (string * string)))
| JWTError (why : jwt_failure)
| JWSError (msg : string)
| ValueError (msg : string)
| OverflowError
| RecursionError
| UniqueViolationError.

Inductive result (A : Type) : Type :=
| Ok (a : A)
| Raise (e : exn).
Arguments Ok {A} a.
Arguments Raise {A} e.

Definition HTTP_400_BAD_REQUEST : Z := 400.
Definition HTTP_401_UNAUTHORIZED : Z := 401.

(** [bool(s)] for a string. *)
Definition truthy (s : string) : bool :=
  match s with EmptyString => false | String _ _ => true end.

(** [bool(x)] for [x : str | None]. *)
Definition truthy_opt (x : option string) : bool :=
  match x with None => false | Some s => truthy s end.

(** [a or b] on [str | None]. *)
Definition py_or (a b : option string) : option string :=
  if truthy_opt a then a else b.

(** [s.startswith(p)]. *)
Fixpoint startswith (s p : string) {struct p} : bool :=
  match p with
  | EmptyString => true
  | String a p' =>
      match s with
      | EmptyString => false
      | String b s' => Ascii.eqb a b && startswith s' p'
      end
  end.

(** [s[n:]]. *)
Fixpoint slice_from (n : nat) (s : string) : string :=
  match n, s with
  | O, _ => s
  | S _, EmptyString => EmptyString
  | S n', String _ s' => slice_from n' s'
  end.

(** [s.partition(" ")], keeping the head and the tail. *)
Fixpoint partition_space (s : string) : string * string :=
  match s with
  | EmptyString => (EmptyString, EmptyString)
  | String c s' =>
      if Ascii.eqb c " "%char then (EmptyString, s')
      else let '(h, t) := partition_space s' in (String c h, t)
  end.

Definition lower_ascii (c : ascii) : ascii :=
  let n := nat_of_ascii c in
  if (65 <=? n)%nat && (n <=? 90)%nat then ascii_of_nat (n + 32) else c.

(** [s.lower()] on ASCII text. *)
Fixpoint lower (s : string) : string :=
  match s with
  | EmptyString => EmptyString
  | String c s' => String (lower_ascii c) (lower s')
  end.

(** ** core/config.py *)

Record Settings : Type := {
  app_name : string;
  secret_key : string;
  algorithm : string;
  access_token_expire_minutes : Z;
  database_url : string
}.

(** [timedelta(minutes=m)], in seconds. *)
Definition minutes (m : Z) : Z := m * 60.

(** ** datetime arithmetic *)

(** [datetime.min] and [datetime.max] in UTC, in whole seconds since the
    epoch: the first second of year 1 and the last second of year 9999. *)
Definition datetime_min : Z := -62135596800.
Definition datetime_max : Z := 253402300799.

Definition in_datetime_range (x : Z) : Prop :=
  datetime_min <= x <= datetime_max.

(** [dt + delta]: [OverflowError] ("date value out of range") when the
    sum leaves the range of [datetime].  For a clock reading in range, a
    [delta] too large for a [timedelta], which [timedelta(minutes=m)]
    turns down with the same [OverflowError], also gives a sum out of
    range. *)
Definition datetime_add (dt delta : Z) : result Z :=
  if (datetime_min <=? dt + delta) && (dt + delta <=? datetime_max)
  then Ok (dt + delta)
  else Raise OverflowError.

(** ** The libraries the code calls *)

(** The claim set of an access token: the two claims this program writes
    and reads.  python-jose turns a [datetime] under ["exp"] into a number
    of seconds, and rejects a token whose ["sub"] is not a string. *)
Record Claims : Type := {
  exp : option Z;
  sub : option string
}.

(** [jose.jwt]: [jwt_encode claims key algorithm] and
    [jwt_decode token key algorithms now]. *)
Class Jose : Type := {
  jwt_encode : Claims -> string -> string -> result string;
  jwt_decode : string -> string -> list string -> Z -> result Claims
}.

(** [passlib.context.CryptContext]: [ctx_hash secret salt], where [salt] is
    the salt the context draws for this call, and [ctx_verify secret hash].
    Both raise for a secret longer than [MAX_PASSWORD_SIZE]
    ([PasswordSizeError], a [ValueError]). *)
Class CryptContext : Type := {
  ctx_hash : string -> string -> result string;
  ctx_verify : string -> string -> result bool
}.

(** [passlib.exc.PasswordSizeError.max_size], 4096 unless the environment
    says otherwise. *)
Definition MAX_PASSWORD_SIZE : nat := 4096.

(** ** core/security.py *)

Section Security.
Context {jose : Jose} {pwd_context : CryptContext}.
Variable settings : Settings.

Definition hash_password (password salt : string) : result string :=
  ctx_hash password salt.

Definition verify_password (plain_password hashed_password : string)
  : result bool :=
  ctx_verify plain_password hashed_password.

(** The TTL [create_access_token] adds to the clock.
    [bool(expires_delta)]: a [timedelta] is false only when it is zero. *)
Definition effective_ttl (expires_delta : option Z) : Z :=
  match expires_delta with
  | Some d =>
      if d =? 0 then minutes (access_token_expire_minutes settings) else d
  | None => minutes (access_token_expire_minutes settings)
  end.

Definition create_access_token (subject : string)
    (expires_delta : option Z) (now : Z) : result string :=
  let expire :=
    match expires_delta with
    | Some d =>
        if d =? 0
        then datetime_add now
               (minutes (access_token_expire_minutes settings))
        else datetime_add now d
    | None =>
        datetime_add now (minutes (access_token_expire_minutes settings))
    end in
  match expire with
  | Raise e => Raise e
  | Ok expire =>
      let to_encode := {| exp := Some expire; sub := Some subject |} in
      jwt_encode to_encode (secret_key settings) (algorithm settings)
  end.

(** [except JWTError] catches [JWTError] and its subclasses only; any
    other exception propagates. *)
Definition decode_access_token (token : string) (now : Z)
  : result (option string) :=
  match jwt_decode token (secret_key settings) [algorithm settings] now with
  | Ok payload => Ok (sub payload)
  | Raise (JWTError _) => Ok None
  | Raise e => Raise e
  end.
End Security.

(** ** The user table behind [database.prisma] *)

Module User.
(** A row of the user table.  [signin] probes two spellings of the hash
    attribute with [getattr(user, name, None)]; each is [None] when the
    attribute is missing or null. *)
Record t : Type := {
  id : string;
  email : string;
  password_hash : option string;
  passwordHash : option string
}.
End User.

(** The identifier Prisma gives to a new row, from the rows already there. *)
Class IdGenerator : Type := {
  new_id : list User.t -> string
}.

(** State and exceptions: a computation reads and writes the user table and
    returns a value or raises. *)
Definition DB (A : Type) : Type := list User.t -> result A * list User.t.

Definition ret {A : Type} (a : A) : DB A := fun db => (Ok a, db).

Definition raise {A : Type} (e : exn) : DB A := fun db => (Raise e, db).

Definition bind {A B : Type} (m : DB A) (k : A -> DB B) : DB B :=
  fun db =>
    match m db with
    | (Ok a, db') => k a db'
    | (Raise e, db') => (Raise e, db')
    end.

(** A call that does not touch the table. *)
Definition pure_call {A : Type} (r : result A) : DB A := fun db => (r, db).

Declare Scope db_scope.
Delimit Scope db_scope with db.
Notation "x <- m ;; k" := (bind m (fun x => k))
  (at level 100, m at next level, right associativity) : db_scope.

Section Prisma.
Context {ids : IdGenerator}.

(** Modelled from the spec: [database.prisma] is not among the sources.
    [find_user_by_email(email) -> User|none]. *)
Definition find_unique_email (e : string) : DB (option User.t) :=
  fun db => (Ok (List.find (fun u => String.eqb (User.email u) e) db), db).

(** Modelled from the spec: [database.prisma] is not among the sources.
    [find_user_by_id(id) -> User|none]. *)
Definition find_unique_id (i : string) : DB (option User.t) :=
  fun db => (Ok (List.find (fun u => String.eqb (User.id u) i) db), db).

(** Modelled from the spec: [database.prisma] is not among the sources.
    [create_user(email, password_hash) -> User], with the uniqueness of
    the email enforced by the store, which rejects a duplicate with a
    conflict error. *)
Definition create (e h : string) : DB User.t :=
  fun db =>
    match List.find (fun u => String.eqb (User.email u) e) db with
    | Some _ => (Raise UniqueViolationError, db)
    | None =>
        let u := {| User.id := new_id db; User.email := e;
                    User.password_hash := None;
                    User.passwordHash := Some h |} in
        (Ok u, (db ++ [u])%list)
    end.
End Prisma.

(** ** api/deps.py *)

(** The two parts of a Starlette request that the resolvers read: the
    headers, under their canonical names, and the cookies. *)
Record Request : Type := {
  headers : gmap string string;
  cookies : gmap string string
}.

Record HTTPAuthorizationCredentials : Type := {
  scheme : string;
  credentials : string
}.

Definition COOKIE_NAME : string := "access_token".

(** [fastapi.security.utils.get_authorization_scheme_param]. *)
Definition get_authorization_scheme_param (authorization : option string)
  : string * string :=
  match authorization with
  | None => (EmptyString, EmptyString)
  | Some v => if truthy v then partition_space v
              else (EmptyString, EmptyString)
  end.

(** [security_bearer = HTTPBearer(auto_error=False)]: FastAPI evaluates
    this dependency on the request and passes its value to
    [get_current_user_id] as [credentials]. *)
Definition security_bearer (request : Request)
  : option HTTPAuthorizationCredentials :=
  let authorization := headers request !! "Authorization" in
  let '(sch, cred) := get_authorization_scheme_param authorization in
  if negb (truthy_opt authorization && truthy sch && truthy cred) then None
  else if negb (String.eqb (lower sch) "bearer") then None
  else Some {| scheme := sch; credentials := cred |}.

Definition not_authenticated : exn :=
  HTTPException HTTP_401_UNAUTHORIZED "Not authenticated"
                (Some [("WWW-Authenticate", "Bearer")]).

Definition invalid_or_expired : exn :=
  HTTPException HTTP_401_UNAUTHORIZED "Invalid or expired token"
                (Some [("WWW-Authenticate", "Bearer")]).

Definition user_not_found : exn :=
  HTTPException HTTP_401_UNAUTHORIZED "User not found" None.

Section Deps.
Context {jose : Jose}.
Variable settings : Settings.

Definition get_token (request : Request) : option string :=
  let auth_header := headers request !! "Authorization" in
  match auth_header with
  | Some a =>
      if truthy a && startswith a "Bearer " then Some (slice_from 7 a)
      else cookies request !! COOKIE_NAME
  | None => cookies request !! COOKIE_NAME
  end.

(** The value of the local [token] of [get_current_user_id] when it is
    tested. *)
Definition current_user_id_token
    (creds : option HTTPAuthorizationCredentials) (request : Request)
  : option string :=
  match creds with
  | Some c => Some (credentials c)
  | None => cookies request !! COOKIE_NAME
  end.

Definition get_current_user_id
    (creds : option HTTPAuthorizationCredentials) (request : Request)
    (now : Z) : result string :=
  let token := current_user_id_token creds request in
  match token with
  | None => Raise not_authenticated
  | Some token =>
      if negb (truthy token) then Raise not_authenticated
      else
        match decode_access_token settings token now with
        | Raise e => Raise e
        | Ok user_id =>
            if negb (truthy_opt user_id) then Raise invalid_or_expired
            else match user_id with
                 | Some u => Ok u
                 | None => Raise invalid_or_expired
                 end
        end
  end.

(** The route-level view of the required resolver: the dependency
    [security_bearer] is resolved on the same request. *)
Definition require_user_id (request : Request) (now : Z) : result string :=
  get_current_user_id (security_bearer request) request now.

Definition get_current_user
    (creds : option HTTPAuthorizationCredentials) (request : Request)
    (now : Z) : DB User.t :=
  (user_id <- pure_call (get_current_user_id creds request now) ;;
   user <- find_unique_id user_id ;;
   match user with
   | None => raise user_not_found
   | Some u => ret u
   end)%db.

(** The value of the local [token] of [get_optional_user_id] when it is
    tested for the second time. *)
Definition optional_user_id_token (request : Request) : option string :=
  let token := cookies request !! COOKIE_NAME in
  if negb (truthy_opt token) then
    match headers request !! "Authorization" with
    | Some auth =>
        if truthy auth && startswith auth "Bearer "
        then Some (slice_from 7 auth) else token
    | None => token
    end
  else token.

Definition get_optional_user_id (request : Request) (now : Z)
  : result (option string) :=
  let token := optional_user_id_token request in
  match token with
  | None => Ok None
  | Some token =>
      if negb (truthy token) then Ok None
      else decode_access_token settings token now
  end.
End Deps.

(** ** schemas/auth.py

    The bodies reach the routes after pydantic has validated them. *)

Record SignUpRequest : Type := {
  signup_email : string;
  signup_password : string
}.

Record SignInRequest : Type := {
  signin_email : string;
  signin_password : string
}.

Record Token : Type := {
  access_token : string;
  token_type : string
}.

(** ** api/routes/auth.py *)

Definition email_already_registered : exn :=
  HTTPException HTTP_400_BAD_REQUEST "Email already registered" None.

Definition invalid_email_or_password : exn :=
  HTTPException HTTP_401_UNAUTHORIZED "Invalid email or password" None.

Section Routes.
Context {jose : Jose} {pwd_context : CryptContext} {ids : IdGenerator}.
Variable settings : Settings.

(** The hash is an argument of [prisma.user.create]: it is computed, and
    may raise, before the row is written. *)
Definition signup (body : SignUpRequest) (salt : string) (now : Z)
  : DB Token :=
  (existing <- find_unique_email (signup_email body) ;;
   match existing with
   | Some _ => raise email_already_registered
   | None =>
       h <- pure_call (hash_password (signup_password body) salt) ;;
       user <- create (signup_email body) h ;;
       tok <- pure_call
                (create_access_token settings (User.id user)
                   (Some (minutes (access_token_expire_minutes settings)))
                   now) ;;
       ret {| access_token := tok; token_type := "bearer" |}
   end)%db.

(** [getattr(user, name, None)] for a [user] that may be [None]. *)
Definition getattr (user : option User.t) (field : User.t -> option string)
  : option string :=
  match user with
  | Some u => field u
  | None => None
  end.

(** The condition [not user or not pwd_hash or not verify_password(...)],
    evaluated left to right with short circuit. *)
Definition signin (body : SignInRequest) (now : Z) : DB Token :=
  (user <- find_unique_email (signin_email body) ;;
   let pwd_hash :=
     py_or (getattr user User.password_hash)
           (getattr user User.passwordHash) in
   match user with
   | None => raise invalid_email_or_password
   | Some u =>
       match pwd_hash with
       | None => raise invalid_email_or_password
       | Some h =>
           if negb (truthy h) then raise invalid_email_or_password
           else
             ok <- pure_call (verify_password (signin_password body) h) ;;
             if negb ok then raise invalid_email_or_password
             else
               tok <- pure_call
                        (create_access_token settings (User.id u)
                           (Some (minutes
                                    (access_token_expire_minutes settings)))
                           now) ;;
               ret {| access_token := tok; token_type := "bearer" |}
       end
   end)%db.
End Routes.

(** ** Reference implementations of the library interfaces

    These are not the wire formats of python-jose or passlib.  They are
    small executable implementations of the two interfaces with the
    failure behaviour of the libraries: a token or a hash is a printable
    string; decoding rejects what it cannot parse, a key or an algorithm
    that does not match, and an expiry in the past; a hash that does not
    carry the scheme's identifier cannot be identified, and
    [CryptContext.verify] raises for it; a secret longer than
    [MAX_PASSWORD_SIZE] is refused by [hash] and by [verify] with
    passlib's [PasswordSizeError], a [ValueError].  A second codec,
    [parsing_jose], puts python-jose's parsing of the header segment in
    front of the first. *)

Module Reference.

(** A positive number written in binary, least significant digit first,
    without its leading one. *)
Fixpoint pos_to_bits (p : positive) : string :=
  match p with
  | xH => EmptyString
  | xO q => String "0" (pos_to_bits q)
  | xI q => String "1" (pos_to_bits q)
  end.

Fixpoint bits_to_pos (s : string) : option positive :=
  match s with
  | EmptyString => Some xH
  | String c s' =>
      if Ascii.eqb c "0" then xO <$> bits_to_pos s'
      else if Ascii.eqb c "1" then xI <$> bits_to_pos s'
      else None
  end.

(** Cut a string at its first dollar sign. *)
Fixpoint split_dollar (s : string) : option (string * string) :=
  match s with
  | EmptyString => None
  | String c s' =>
      if Ascii.eqb c "$" then Some (EmptyString, s')
      else (fun ab : string * string => (String c ab.1, ab.2))
             <$> split_dollar s'
  end.

#[export] Instance Claims_eq_dec : EqDecision Claims.
Proof. solve_decision. Defined.

#[export] Instance Claims_countable : Countable Claims :=
  inj_countable' (fun c => (exp c, sub c))
                 (fun p => {| exp := p.1; sub := p.2 |})
                 (fun c => match c with Build_Claims _ _ => eq_refl end).

Definition supported (alg : string) : bool :=
  bool_decide (alg ∈ ["HS256"; "HS384"; "HS512"]).

(** A token names its algorithm, is bound to its key and carries its
    claims. *)
Definition ref_jwt_encode (c : Claims) (key alg : string) : result string :=
  if supported alg then Ok (pos_to_bits (encode (alg, key, c)))
  else Raise (JWSError "Algorithm not supported.").

Definition ref_jwt_decode (token key : string) (algorithms : list string)
    (now : Z) : result Claims :=
  match bits_to_pos token ≫= decode (A := string * string * Claims) with
  | None => Raise (JWTError Malformed)
  | Some (alg, k, c) =>
      if negb (bool_decide (alg ∈ algorithms))
      then Raise (JWTError WrongAlgorithm)
      else if negb (String.eqb k key) then Raise (JWTError BadSignature)
      else match exp c with
           | Some e => if e <? now then Raise (JWTError Expired) else Ok c
           | None => Ok c
           end
  end.

Definition jose : Jose :=
  {| jwt_encode := ref_jwt_encode; jwt_decode := ref_jwt_decode |}.

(** *** The header parser of python-jose

    [jws._load] cuts the token at its dots, decodes the first segment
    from base64url and parses it with [json.loads], before any check of
    the signature.  [json.loads] raises [RecursionError], which is not a
    [JWTError], on arrays nested deeper than the interpreter allows. *)

(** The value of a character of the base64url alphabet. *)
Definition b64_value (c : ascii) : option N :=
  let n := N_of_ascii c in
  if (65 <=? n)%N && (n <=? 90)%N then Some (n - 65)%N
  else if (97 <=? n)%N && (n <=? 122)%N then Some (n - 71)%N
  else if (48 <=? n)%N && (n <=? 57)%N then Some (n + 4)%N
  else if (n =? 45)%N then Some 62%N
  else if (n =? 95)%N then Some 63%N
  else None.

Fixpoint b64_values (s : string) : option (list N) :=
  match s with
  | EmptyString => Some []
  | String c s' =>
      v ← b64_value c; vs ← b64_values s'; Some (v :: vs)
  end.

(** Four characters give three bytes; a tail of three gives two and a tail
    of two gives one. *)
Fixpoint b64_bytes (fuel : nat) (vs : list N) : string :=
  match fuel with
  | O => EmptyString
  | S fuel' =>
      match vs with
      | a :: b :: c :: d :: rest =>
          String (ascii_of_N (a * 4 + b / 16))
            (String (ascii_of_N ((b mod 16) * 16 + c / 4))
               (String (ascii_of_N ((c mod 4) * 64 + d))
                  (b64_bytes fuel' rest)))
      | [a; b; c] =>
          String (ascii_of_N (a * 4 + b / 16))
            (String (ascii_of_N ((b mod 16) * 16 + c / 4)) EmptyString)
      | [a; b] => String (ascii_of_N (a * 4 + b / 16)) EmptyString
      | _ => EmptyString
      end
  end%N.

Definition base64url_decode (s : string) : option string :=
  vs ← b64_values s; Some (b64_bytes (length vs) vs).

(** The text before the first dot, when the token has at least two dots. *)
Fixpoint before_dot (s : string) : option (string * string) :=
  match s with
  | EmptyString => None
  | String c s' =>
      if Ascii.eqb c "." then Some (EmptyString, s')
      else (fun ab : string * string => (String c ab.1, ab.2))
             <$> before_dot s'
  end.

Definition header_segment (token : string) : option string :=
  match before_dot token with
  | Some (header, rest) =>
      match before_dot rest with
      | Some _ => Some header
      | None => None
      end
  | None => None
  end.

(** How many arrays a JSON text opens before anything else. *)
Fixpoint opening_brackets (s : string) : N :=
  match s with
  | String c s' =>
      if Ascii.eqb c "[" then (1 + opening_brackets s')%N else 0%N
  | EmptyString => 0%N
  end.

(** [sys.getrecursionlimit()], by default. *)
Definition recursion_limit : N := 1000.

(** The reference codec behind that parser. *)
Definition parsing_jwt_decode (token key : string)
    (algorithms : list string) (now : Z) : result Claims :=
  match header_segment token ≫= base64url_decode with
  | Some header =>
      if (recursion_limit <? opening_brackets header)%N
      then Raise RecursionError
      else ref_jwt_decode token key algorithms now
  | None => ref_jwt_decode token key algorithms now
  end.

Definition parsing_jose : Jose :=
  {| jwt_encode := ref_jwt_encode; jwt_decode := parsing_jwt_decode |}.

Definition ident : string := "$pbkdf2-sha256$".

(** The digest of a secret under a salt; two secrets never collide. *)
Definition digest (secret salt : string) : string :=
  pos_to_bits (encode (secret, salt)).

(** The hash string of a secret under a salt. *)
Definition hash_string (secret salt : string) : string :=
  ident +:+ pos_to_bits (encode salt) +:+ "$" +:+ digest secret salt.

(** [len(secret) > MAX_PASSWORD_SIZE]. *)
Definition too_long (secret : string) : bool :=
  (MAX_PASSWORD_SIZE <? String.length secret)%nat.

Definition password_size_error : exn :=
  ValueError "password exceeds maximum allowed size".

Definition ref_hash (secret salt : string) : result string :=
  if too_long secret then Raise password_size_error
  else Ok (hash_string secret salt).

(** The context identifies the scheme of the hash first; the scheme then
    checks the size of the secret before it parses the hash. *)
Definition ref_verify (secret hash : string) : result bool :=
  if negb (startswith hash ident)
  then Raise (ValueError "hash could not be identified")
  else if too_long secret then Raise password_size_error
  else
    match split_dollar (slice_from 15 hash) with
    | None => Raise (ValueError "malformed pbkdf2_sha256 hash")
    | Some (salt_bits, checksum) =>
        match bits_to_pos salt_bits ≫= decode (A := string) with
        | None => Raise (ValueError "malformed pbkdf2_sha256 hash")
        | Some salt => Ok (String.eqb checksum (digest secret salt))
        end
    end.

Definition passlib : CryptContext :=
  {| ctx_hash := ref_hash; ctx_verify := ref_verify |}.

(** Identifiers are drawn in sequence. *)
Definition ids : IdGenerator :=
  {| new_id := fun db =>
       "user-" +:+ pos_to_bits (Pos.of_succ_nat (length db)) |}.

(** The defaults of [Settings.__init__] when the environment is empty. *)
Definition settings : Settings :=
  {| app_name := "Event Board";
     secret_key := "change-me-in-production-use-env";
     algorithm := "HS256";
     access_token_expire_minutes := 1440;
     database_url := "" |}.

End Reference.

(** ** The contracts of the libraries *)

Section Contracts.
Context {jose : Jose} {pwd_context : CryptContext}.


(** Under [key] and [alg], encoding succeeds and decoding gives the claim
    set back as long as its expiry is not in the past. *)
Definition codec_round_trip (key alg : string) : Prop :=
  forall c now,
    (forall e, exp c = Some e -> now <= e) ->
    exists token,
      jwt_encode c key alg = Ok token /\
      jwt_decode token key [alg] now = Ok c.

(** Under [key] and [alg], a token whose expiry is in the past is rejected
    with a [JWTError]. *)
Definition codec_expiry (key alg : string) : Prop :=
  forall c e now token,
    exp c = Some e -> e < now ->
    jwt_encode c key alg = Ok token ->
    exists why, jwt_decode token key [alg] now = Raise (JWTError why).



(** The hasher accepts every secret of at most [MAX_PASSWORD_SIZE]
    characters. *)
Definition hash_accepts_bounded : Prop :=
  forall secret salt,
    (String.length secret <= MAX_PASSWORD_SIZE)%nat ->
    exists h, ctx_hash secret salt = Ok h.
End Contracts.

(** ** The ways [signin] turns a request down *)

Section SigninRejections.
Context {pwd_context : CryptContext}.

Definition lookup_email (e : string) (db : list User.t) : option User.t :=
  List.find (fun u => String.eqb (User.email u) e) db.

Definition stored_hash (u : User.t) : option string :=
  py_or (User.password_hash u) (User.passwordHash u).

Definition unknown_email (body : SignInRequest) (db : list User.t) : Prop :=
  lookup_email (signin_email body) db = None.

Definition lacks_hash (body : SignInRequest) (db : list User.t) : Prop :=
  exists u, lookup_email (signin_email body) db = Some u /\
            truthy_opt (stored_hash u) = false.

Definition wrong_password (body : SignInRequest) (db : list User.t) : Prop :=
  exists u h, lookup_email (signin_email body) db = Some u /\
              stored_hash u = Some h /\ truthy h = true /\
              verify_password (signin_password body) h = Ok false.
End SigninRejections.

(** ** What [signup] and [signin] build *)

Section AccountRows.
Context {ids : IdGenerator}.

(** The row [signup] asks the store to create, [h] being the hash of the
    password. *)
Definition new_user (body : SignUpRequest) (h : string)
    (db : list User.t) : User.t :=
  {| User.id := new_id db;
     User.email := signup_email body;
     User.password_hash := None;
     User.passwordHash := Some h |}.

(** [Token(access_token=tok, token_type="bearer")]. *)
Definition bearer_token (tok : string) : Token :=
  {| access_token := tok; token_type := "bearer" |}.
End AccountRows.

(** ** Sample tokens, requests and tables *)

Module Samples.
Import Reference.

(** The token issued to [subject] at [now] for [ttl] seconds. *)
Definition issue (subject : string) (ttl now : Z) : string :=
  match create_access_token (jose := jose) settings subject (Some ttl) now
  with
  | Ok token => token
  | Raise _ => EmptyString
  end.

Definition alice_token : string := issue "alice" 60 1000.
Definition bob_token : string := issue "bob" 60 1000.
Definition empty_subject_token : string := issue "" 60 1000.

(** A well-signed token without expiry and without subject. *)
Definition no_sub_token : string :=
  match jwt_encode (Jose := jose) {| exp := None; sub := None |}
          (secret_key settings) (algorithm settings) with
  | Ok token => token
  | Raise _ => EmptyString
  end.

Definition bearer (token : string) : gmap string string :=
  {[ "Authorization" := "Bearer " +:+ token ]}.

Definition cookie (token : string) : gmap string string :=
  {[ COOKIE_NAME := token ]}.

(** Alice's token in the header, Bob's in the cookie. *)
Definition both_request : Request :=
  {| headers := bearer alice_token; cookies := cookie bob_token |}.



Definition cookie_request (token : string) : Request :=
  {| headers := ∅; cookies := cookie token |}.

Definition header_request (token : string) : Request :=
  {| headers := bearer token; cookies := ∅ |}.

(** Alice's claims signed under another key, and under another algorithm. *)
Definition other_key_token : string :=
  match jwt_encode (Jose := jose) {| exp := Some 1060; sub := Some "alice" |}
          "another-secret" (algorithm settings) with
  | Ok token => token
  | Raise _ => EmptyString
  end.

Definition other_algorithm_token : string :=
  match jwt_encode (Jose := jose) {| exp := Some 1060; sub := Some "alice" |}
          (secret_key settings) "HS512" with
  | Ok token => token
  | Raise _ => EmptyString
  end.

Definition ada : SignUpRequest :=
  {| signup_email := "a@x.com"; signup_password := "secret1" |}.

Definition ada_again : SignUpRequest :=
  {| signup_email := "a@x.com"; signup_password := "secret2" |}.

Definition ada_right : SignInRequest :=
  {| signin_email := "a@x.com"; signin_password := "secret1" |}.



(** The row created when Ada signs up on an empty table with salt
    ["salt"], and the table after that. *)
Definition ada_row : User.t :=
  {| User.id := new_id (IdGenerator := ids) [];
     User.email := "a@x.com";
     User.password_hash := None;
     User.passwordHash := Some (hash_string "secret1" "salt") |}.

Definition one_user : list User.t := [ada_row].

(** A table whose only row has a stored hash that is not a hash. *)
Definition corrupt_user : list User.t :=
  [ {| User.id := "user-9"; User.email := "a@x.com";
       User.password_hash := None; User.passwordHash := Some "corrupt" |} ].

(** The token [signup] returns to Ada at instant 1000. *)
Definition ada_token : Token :=
  bearer_token (issue (User.id ada_row) (minutes 1440) 1000).
End Samples.

(** ** api/routes/auth.py: the protected route *)

(** The body of [me]: the JSON object it returns. *)
Definition me (current_user : User.t) : list (string * string) :=
  [("id", User.id current_user); ("email", User.email current_user)].

Section MeRoute.
Context {jose : Jose}.
Variable settings : Settings.

(** [GET /auth/me] as FastAPI serves it: the dependencies
    [security_bearer], [get_current_user_id] and [get_current_user] are
    resolved on the request, then [me] runs on the user they give. *)
Definition me_route (request : Request) (now : Z)
  : DB (list (string * string)) :=
  (current_user <-
     get_current_user settings (security_bearer request) request now ;;
   ret (me current_user))%db.
End MeRoute.

(** ** main.py: the HTML sign-in and sign-up forms and a guarded page *)

(** A value of a template context. *)
Inductive context_value : Type :=
| CRequest (request : Request)
| CStr (s : string)
| CBool (b : bool)
| CNone.

Module SetCookie.
(** The arguments of [response.set_cookie]. *)
Record t : Type := {
  key : string;
  value : string;
  httponly : bool;
  max_age : Z;
  samesite : string
}.
End SetCookie.

(** The responses the pages return.  A template response is kept as the
    name of the template and its context; rendering is Jinja's. *)
Inductive Response : Type :=
| TemplateResponse (name : string) (context : list (string * context_value))
| RedirectResponse (url : string) (status_code : Z)
                   (set_cookie : list SetCookie.t)
| PlainTextResponse (content : string) (status_code : Z)
                    (media_type : string).

(** [traceback.format_exc()] for the exception being handled. *)
Class Traceback : Type := {
  format_exc : exn -> string
}.

(** [try: body except Exception as e: handler]: what [body] wrote before
    it raised stays written. *)
Definition try_except {A : Type} (body : DB A) (handler : exn -> DB A)
  : DB A :=
  fun db =>
    match body db with
    | (Ok a, db') => (Ok a, db')
    | (Raise e, db') => handler e db'
    end.

Section Pages.
Context {jose : Jose} {pwd_context : CryptContext} {ids : IdGenerator}
        {traceback : Traceback}.
Variable settings : Settings.

Definition login_submit (request : Request) (email password : string)
    (now : Z) : DB Response :=
  (user <- find_unique_email email ;;
   let pwd_hash :=
     py_or (getattr user User.password_hash)
           (getattr user User.passwordHash) in
   let rejected :=
     TemplateResponse "auth/login.html"
       [("request", CRequest request);
        ("error", CStr "Invalid email or password")] in
   match user with
   | None => ret rejected
   | Some u =>
       match pwd_hash with
       | None => ret rejected
       | Some h =>
           if negb (truthy h) then ret rejected
           else
             ok <- pure_call (verify_password password h) ;;
             if negb ok then ret rejected
             else
               token <- pure_call
                          (create_access_token settings (User.id u)
                             (Some (minutes
                                      (access_token_expire_minutes settings)))
                             now) ;;
               ret (RedirectResponse "/backend" 303
                      [ {| SetCookie.key := COOKIE_NAME;
                           SetCookie.value := token;
                           SetCookie.httponly := true;
                           SetCookie.max_age :=
                             access_token_expire_minutes settings * 60;
                           SetCookie.samesite := "lax" |} ])
       end
   end)%db.

Definition signup_submit (request : Request) (email password salt : string)
    (now : Z) : DB Response :=
  try_except
    (existing <- find_unique_email email ;;
     match existing with
     | Some _ =>
         ret (TemplateResponse "auth/signup.html"
                [("request", CRequest request);
                 ("error", CStr "Email already registered")])
     | None =>
         h <- pure_call (hash_password password salt) ;;
         user <- create email h ;;
         token <- pure_call
                    (create_access_token settings (User.id user)
                       (Some (minutes (access_token_expire_minutes settings)))
                       now) ;;
         ret (RedirectResponse "/backend" 303
                [ {| SetCookie.key := COOKIE_NAME;
                     SetCookie.value := token;
                     SetCookie.httponly := true;
                     SetCookie.max_age :=
                       access_token_expire_minutes settings * 60;
                     SetCookie.samesite := "lax" |} ])
     end)%db
    (fun e => ret (PlainTextResponse (format_exc e) 500 "text/plain")).

(** [x is None] lets every other value through, the empty string too. *)
Definition backend_new_event_page (request : Request) (now : Z)
  : result Response :=
  match get_optional_user_id settings request now with
  | Raise e => Raise e
  | Ok None => Ok (RedirectResponse "/login" 303 [])
  | Ok (Some _) =>
      Ok (TemplateResponse "backend/event_form.html"
            [("request", CRequest request);
             ("event", CNone);
             ("is_edit", CBool false)])
  end.
End Pages.

(** ** What the forms answer *)

(** The page the sign-in form answers to a request it turns down. *)
Definition login_rejected (request : Request) : Response :=
  TemplateResponse "auth/login.html"
    [("request", CRequest request);
     ("error", CStr "Invalid email or password")].

(** The page the sign-up form answers when the email is taken. *)
Definition signup_rejected (request : Request) : Response :=
  TemplateResponse "auth/signup.html"
    [("request", CRequest request);
     ("error", CStr "Email already registered")].

(** The cookie both forms set, and the redirection that carries it. *)
Definition session_cookie (settings : Settings) (token : string)
  : SetCookie.t :=
  {| SetCookie.key := COOKIE_NAME;
     SetCookie.value := token;
     SetCookie.httponly := true;
     SetCookie.max_age := access_token_expire_minutes settings * 60;
     SetCookie.samesite := "lax" |}.

Definition logged_in (settings : Settings) (token : string) : Response :=
  RedirectResponse "/backend" 303 [session_cookie settings token].

(** The form of a new event, and the redirection to the sign-in page. *)
Definition event_form (request : Request) : Response :=
  TemplateResponse "backend/event_form.html"
    [("request", CRequest request); ("event", CNone);
     ("is_edit", CBool false)].


(** ** One more contract of the token library *)

Section KeyContract.
Context {jose : Jose}.

End KeyContract.

(** ** More samples *)

Module MoreSamples.
Import Reference.

(** Settings whose algorithm the token library does not know. *)
Definition broken_settings : Settings :=
  {| app_name := "Event Board";
     secret_key := "change-me-in-production-use-env";
     algorithm := "none";
     access_token_expire_minutes := 1440;
     database_url := "" |}.


Definition traceback : Traceback :=
  {| format_exc := fun _ => "Traceback (most recent call last):" |}.

(** Ada's row once [signup] failed to issue her token. *)
Definition ada_row_broken : User.t :=
  new_user (ids := ids) Samples.ada (hash_string "secret1" "salt") [].




(** A token whose header segment is the base64url text of 30000 opening
    brackets: ["W1tb"] is ["[[["]. *)
Definition nested_token : string :=
  N.iter 10000 (String.append "W1tb") ".e30.c2ln".

(** A TTL of three million days. *)
Definition long_ttl : Z := 3000000 * 86400.

(** The token in Ada's row of [Samples.ada_token]. *)
Definition ada_access_token : string := access_token Samples.ada_token.

(** The token Ada gets when she signs in at instant 2000. *)
Definition ada_login_token : string :=
  Samples.issue (User.id Samples.ada_row) (minutes 1440) 2000.

Definition anonymous_request : Request := {| headers := ∅; cookies := ∅ |}.
End MoreSamples.

(** ** The reference implementations meet the contracts *)

Module ReferenceFacts.
Import Reference.

Lemma bits_to_pos_to_bits (p : positive) :
  bits_to_pos (pos_to_bits p) = Some p.
Proof. induction p as [q IH | q IH |]; simpl; rewrite ?IH; reflexivity. Qed.


Lemma parse_token (alg key : string) (c : Claims) :
  bits_to_pos (pos_to_bits (encode (alg, key, c)))
    ≫= decode (A := string * string * Claims) = Some (alg, key, c).
Proof. rewrite bits_to_pos_to_bits. simpl. apply decode_encode. Qed.


Lemma decode_own_token (alg key : string) (c : Claims) (now : Z) :
  ref_jwt_decode (pos_to_bits (encode (alg, key, c))) key [alg] now =
  match exp c with
  | Some e => if e <? now then Raise (JWTError Expired) else Ok c
  | None => Ok c
  end.
Proof.
  unfold ref_jwt_decode. rewrite parse_token.
  rewrite bool_decide_true by set_solver.
  rewrite String.eqb_refl. reflexivity.
Qed.

Lemma codec_round_trip_ref (key alg : string) :
  supported alg = true -> codec_round_trip (jose := jose) key alg.
Proof.
  intros Hs c now Hexp. simpl. unfold ref_jwt_encode. rewrite Hs.
  eexists; split; [reflexivity |]. rewrite decode_own_token.
  destruct (exp c) as [e |]; [| reflexivity].
  specialize (Hexp e eq_refl).
  destruct (Z.ltb_spec e now); [lia | reflexivity].
Qed.

Lemma codec_round_trip_default :
  codec_round_trip (jose := jose) (secret_key settings) (algorithm settings).
Proof. apply codec_round_trip_ref. vm_compute. reflexivity. Qed.

Lemma codec_expiry_ref (key alg : string) :
  codec_expiry (jose := jose) key alg.
Proof.
  intros c e now token He Hlt. simpl. unfold ref_jwt_encode.
  destruct (supported alg); [| discriminate].
  intros [= <-]. rewrite decode_own_token, He.
  destruct (Z.ltb_spec e now); [eauto | lia].
Qed.

(** A token of the reference codec has no dot, so the header parser lets
    it through to the codec. *)
Lemma before_dot_bits (p : positive) : before_dot (pos_to_bits p) = None.
Proof. induction p as [q IH | q IH |]; simpl; rewrite ?IH; reflexivity. Qed.

Lemma parsing_decode_own_token (alg key : string) (c : Claims)
    (algorithms : list string) (now : Z) :
  parsing_jwt_decode (pos_to_bits (encode (alg, key, c))) key algorithms now =
  ref_jwt_decode (pos_to_bits (encode (alg, key, c))) key algorithms now.
Proof.
  unfold parsing_jwt_decode, header_segment.
  rewrite before_dot_bits. reflexivity.
Qed.

Lemma codec_expiry_parsing (key alg : string) :
  codec_expiry (jose := parsing_jose) key alg.
Proof.
  intros c e now token He Hlt. simpl. unfold ref_jwt_encode.
  destruct (supported alg); [| discriminate].
  intros [= <-]. rewrite parsing_decode_own_token, decode_own_token, He.
  destruct (Z.ltb_spec e now); [eauto | lia].
Qed.









Lemma hash_accepts_bounded_ref :
  hash_accepts_bounded (pwd_context := passlib).
Proof.
  intros secret salt Hlen. simpl. unfold ref_hash, too_long.
  rewrite (proj2 (Nat.ltb_ge _ _) Hlen). eauto.
Qed.
End ReferenceFacts.

(** ** The credential hasher *)

(** C3, as the code has it: [verify_password] is [pwd_context.verify] and
    nothing more.  It returns false exactly when the context returns
    false, and an exception raised by the context for a hash it cannot
    identify or parse reaches the caller unchanged. *)
Theorem verify_password_forwards_context
    {pwd_context : CryptContext} (plain_password hashed_password : string) :
  (forall b, verify_password plain_password hashed_password = Ok b <->
             ctx_verify plain_password hashed_password = Ok b) /\
  (forall e, verify_password plain_password hashed_password = Raise e <->
             ctx_verify plain_password hashed_password = Raise e).
Proof. unfold verify_password. split; intros; reflexivity. Qed.

(** C3 fails: against a stored hash that does not carry the scheme's
    identifier, the context raises and [verify_password] raises with it
    instead of returning false. *)
Lemma verify_password_corrupt_hash_raises :
  verify_password (pwd_context := Reference.passlib) "secret1" "corrupt" =
    Raise (ValueError "hash could not be identified") /\
  verify_password (pwd_context := Reference.passlib) "secret1" "corrupt" <>
    Ok false.
Proof. split; [reflexivity | discriminate]. Qed.

(** ** The token codec *)

Section TokenCodec.
Context {jose : Jose}.
Variable settings : Settings.

Local Abbreviation key := (secret_key settings).
Local Abbreviation alg := (algorithm settings).

(** Inside the range of [datetime] the sum is the sum. *)
Lemma datetime_add_in_range (dt delta : Z) :
  in_datetime_range (dt + delta) -> datetime_add dt delta = Ok (dt + delta).
Proof.
  intros [Hlo Hhi]. unfold datetime_add.
  destruct (Z.leb_spec datetime_min (dt + delta)); [| lia].
  destruct (Z.leb_spec (dt + delta) datetime_max); [reflexivity | lia].
Qed.

(** Outside it the addition raises [OverflowError]. *)
Lemma datetime_add_out_of_range (dt delta : Z) :
  ~ in_datetime_range (dt + delta) ->
  datetime_add dt delta = Raise OverflowError.
Proof.
  intros Hout. unfold datetime_add, in_datetime_range in *.
  destruct (Z.leb_spec datetime_min (dt + delta));
    destruct (Z.leb_spec (dt + delta) datetime_max);
    try reflexivity.
  lia.
Qed.

(** [create_access_token] adds the effective TTL to the clock and signs
    the result. *)
Lemma create_access_token_eq (s : string) (d : option Z) (now : Z) :
  create_access_token settings s d now =
  match datetime_add now (effective_ttl settings d) with
  | Raise e => Raise e
  | Ok expire => jwt_encode {| exp := Some expire; sub := Some s |} key alg
  end.
Proof.
  unfold create_access_token, effective_ttl.
  destruct d as [d |]; [destruct (d =? 0) |]; reflexivity.
Qed.

(** What [create_access_token] signs when it returns. *)
Lemma create_access_token_ok (s token : string) (d : option Z) (now : Z) :
  create_access_token settings s d now = Ok token ->
  in_datetime_range (now + effective_ttl settings d) /\
  jwt_encode
    {| exp := Some (now + effective_ttl settings d); sub := Some s |}
    key alg = Ok token.
Proof.
  rewrite create_access_token_eq. unfold datetime_add, in_datetime_range.
  destruct (Z.leb_spec datetime_min (now + effective_ttl settings d));
    [| discriminate].
  destruct (Z.leb_spec (now + effective_ttl settings d) datetime_max);
    [| discriminate].
  cbn [andb]. intros Henc. split; [lia | exact Henc].
Qed.

(** What [create_access_token] signs for a TTL that is not zero and an
    expiry in range. *)
Lemma create_access_token_claims (s : string) (t now : Z) :
  t <> 0 -> in_datetime_range (now + t) ->
  create_access_token settings s (Some t) now =
  jwt_encode {| exp := Some (now + t); sub := Some s |} key alg.
Proof.
  intros Ht Hrange. rewrite create_access_token_eq.
  unfold effective_ttl. destruct (Z.eqb_spec t 0); [contradiction |].
  rewrite (datetime_add_in_range now t Hrange). reflexivity.
Qed.

(** C6, as the code has it: for every subject [s] and positive TTL [t]
    whose expiry [now + t] is a [datetime], that is, does not pass year
    9999, a token created at [now] decodes to [s] at every instant from
    [now] until [t] has elapsed, under the same settings; for a TTL
    whose expiry passes year 9999, [create_access_token] raises
    [OverflowError] and there is no token. *)
Theorem decode_create_round_trip :
  codec_round_trip key alg ->
  forall (s : string) (t now now' : Z),
    0 < t ->
    (in_datetime_range (now + t) ->
     now <= now' <= now + t ->
     exists token,
       create_access_token settings s (Some t) now = Ok token /\
       decode_access_token settings token now' = Ok (Some s)) /\
    (datetime_max < now + t ->
     create_access_token settings s (Some t) now = Raise OverflowError).
Proof.
  intros Hcodec s t now now' Ht. split.
  - intros Hrange Hnow.
    rewrite create_access_token_claims by (lia || exact Hrange).
    destruct (Hcodec {| exp := Some (now + t); sub := Some s |} now')
      as (token & Henc & Hdec).
    + simpl. intros e [= <-]. lia.
    + exists token. split; [exact Henc |].
      unfold decode_access_token. rewrite Hdec. reflexivity.
  - intros Hover. rewrite create_access_token_eq.
    unfold effective_ttl. destruct (Z.eqb_spec t 0); [lia |].
    rewrite datetime_add_out_of_range; [reflexivity |].
    unfold in_datetime_range. lia.
Qed.



(** C7, as the code has it: for every token string, [decode_access_token]
    returns [None] whenever [jwt.decode] raises a [JWTError], whatever
    the reason (bad signature, wrong algorithm, expiry in the past,
    malformed structure); a token that [create_access_token] issued,
    with whatever [expires_delta], gives [None] once its TTL has elapsed;
    and [decode_access_token] raises exactly the exceptions of
    [jwt.decode] that are not a [JWTError]. *)
Theorem decode_access_token_catches_JWTError :
  codec_expiry key alg ->
  forall (token : string) (now : Z),
    (forall why, jwt_decode token key [alg] now = Raise (JWTError why) ->
                 decode_access_token settings token now = Ok None) /\
    (forall s d issued,
       create_access_token settings s d issued = Ok token ->
       issued + effective_ttl settings d < now ->
       decode_access_token settings token now = Ok None) /\
    (forall e,
       decode_access_token settings token now = Raise e <->
       jwt_decode token key [alg] now = Raise e /\
       forall why, e <> JWTError why).
Proof.
  intros Hexp token now.
  assert (Hcatch : forall why,
             jwt_decode token key [alg] now = Raise (JWTError why) ->
             decode_access_token settings token now = Ok None).
  { intros why Hwhy. unfold decode_access_token. rewrite Hwhy.
    reflexivity. }
  split; [exact Hcatch |]. split.
  - intros s d issued Hcreate Hlate.
    apply create_access_token_ok in Hcreate as [_ Henc].
    destruct (Hexp {| exp := Some (issued + effective_ttl settings d);
                      sub := Some s |}
                   (issued + effective_ttl settings d) now token
                   eq_refl Hlate Henc) as [why Hwhy].
    exact (Hcatch why Hwhy).
  - intros e. unfold decode_access_token.
    destruct (jwt_decode token key [alg] now) as [payload | e0].
    + split; [discriminate | intros [? _]; discriminate].
    + destruct e0; (split;
        [ first [ discriminate
                | intros [= <-]; split; [reflexivity | discriminate] ]
        | intros [[= <-] Hne]; first [ reflexivity
                                     | destruct (Hne _ eq_refl) ] ]).
Qed.

(** C10: a token that [jwt.decode] accepts but whose claim set has no
    ["sub"] decodes to [None], and the required resolver rejects the
    request that presents it with the 401 of an invalid token. *)
Theorem missing_sub_is_unauthenticated
    (token : string) (now : Z) (payload : Claims)
    (creds : option HTTPAuthorizationCredentials) (request : Request) :
  jwt_decode token key [alg] now = Ok payload ->
  sub payload = None ->
  current_user_id_token creds request = Some token ->
  truthy token = true ->
  decode_access_token settings token now = Ok None /\
  get_current_user_id settings creds request now = Raise invalid_or_expired.
Proof.
  intros Hdec Hsub Htok Htruthy.
  assert (Hnone : decode_access_token settings token now = Ok None).
  { unfold decode_access_token. rewrite Hdec, Hsub.
    reflexivity. }
  split; [exact Hnone |].
  unfold get_current_user_id. rewrite Htok, Htruthy. cbn [negb].
  rewrite Hnone. reflexivity.
Qed.
End TokenCodec.

Lemma decode_create_round_trip_witness :
  (exists token,
     create_access_token (jose := Reference.jose) Reference.settings
       "user-1" (Some 60) 1000 = Ok token /\
     decode_access_token (jose := Reference.jose) Reference.settings
       token 1030 = Ok (Some "user-1")) /\
  create_access_token (jose := Reference.jose) Reference.settings
    "user-1" (Some MoreSamples.long_ttl) 1000 = Raise OverflowError.
Proof.
  split.
  - apply (proj1 (decode_create_round_trip (jose := Reference.jose)
                    Reference.settings
                    ReferenceFacts.codec_round_trip_default
                    "user-1" 60 1000 1030 eq_refl)).
    + vm_compute. split; discriminate.
    + lia.
  - apply (proj2 (decode_create_round_trip (jose := Reference.jose)
                    Reference.settings
                    ReferenceFacts.codec_round_trip_default
                    "user-1" MoreSamples.long_ttl 1000 1000 eq_refl)).
    vm_compute. reflexivity.
Defined.

(** C6 fails: for a positive TTL of three million days the expiry passes
    year 9999, the addition raises [OverflowError] and no token is
    created, so there is nothing to decode. *)
Lemma create_access_token_overflows :
  0 < MoreSamples.long_ttl /\
  create_access_token (jose := Reference.jose) Reference.settings
    "alice" (Some MoreSamples.long_ttl) 1762000000 = Raise OverflowError /\
  ~ (exists token,
       create_access_token (jose := Reference.jose) Reference.settings
         "alice" (Some MoreSamples.long_ttl) 1762000000 = Ok token /\
       decode_access_token (jose := Reference.jose) Reference.settings
         token 1762000000 = Ok (Some "alice")).
Proof.
  split; [reflexivity |]. split; [vm_compute; reflexivity |].
  intros (token & Hcreate & _). vm_compute in Hcreate. discriminate Hcreate.
Qed.

Lemma decode_access_token_catches_JWTError_witness :
  decode_access_token (jose := Reference.jose) Reference.settings
    "garbage" 2000 = Ok None /\
  decode_access_token (jose := Reference.jose) Reference.settings
    Samples.alice_token 1061 = Ok None /\
  (jwt_decode (Jose := Reference.parsing_jose) MoreSamples.nested_token
     (secret_key Reference.settings) [algorithm Reference.settings] 1000 =
     Raise RecursionError /\
   forall why, RecursionError <> JWTError why).
Proof.
  split; [| split].
  - apply (proj1 (decode_access_token_catches_JWTError
                    (jose := Reference.jose) Reference.settings
                    (ReferenceFacts.codec_expiry_ref _ _) "garbage" 2000)
                 Malformed).
    vm_compute. reflexivity.
  - apply (proj1 (proj2 (decode_access_token_catches_JWTError
                           (jose := Reference.jose) Reference.settings
                           (ReferenceFacts.codec_expiry_ref _ _)
                           Samples.alice_token 1061))
                 "alice" (Some 60) 1000).
    + vm_compute. reflexivity.
    + vm_compute. reflexivity.
  - apply (proj1 (proj2 (proj2 (decode_access_token_catches_JWTError
                                  (jose := Reference.parsing_jose)
                                  Reference.settings
                                  (ReferenceFacts.codec_expiry_parsing _ _)
                                  MoreSamples.nested_token 1000))
                        RecursionError)).
    vm_compute. reflexivity.
Defined.

(** C7 fails: a token whose header segment is a deeply nested array makes
    [jwt.decode] raise [RecursionError] while it parses the header;
    [except JWTError] does not catch it and [decode_access_token] raises
    it to the caller. *)
Lemma decode_access_token_raises_RecursionError :
  decode_access_token (jose := Reference.parsing_jose) Reference.settings
    MoreSamples.nested_token 1000 = Raise RecursionError /\
  ~ (exists v,
       decode_access_token (jose := Reference.parsing_jose)
         Reference.settings MoreSamples.nested_token 1000 = Ok v).
Proof.
  assert (H : decode_access_token (jose := Reference.parsing_jose)
                Reference.settings MoreSamples.nested_token 1000 =
              Raise RecursionError) by (vm_compute; reflexivity).
  split; [exact H |]. intros [v Hv]. rewrite H in Hv. discriminate Hv.
Qed.

(** The failures the reference codec tells apart all decode to [None]. *)
Example rejected_tokens :
  let decode := decode_access_token (jose := Reference.jose)
                  Reference.settings in
  let raw token now :=
    jwt_decode (Jose := Reference.jose) token
      (secret_key Reference.settings) [algorithm Reference.settings] now in
  (raw "garbage" 1000 = Raise (JWTError Malformed) /\
   decode "garbage" 1000 = Ok None) /\
  (raw Samples.other_key_token 1000 = Raise (JWTError BadSignature) /\
   decode Samples.other_key_token 1000 = Ok None) /\
  (raw Samples.other_algorithm_token 1000 = Raise (JWTError WrongAlgorithm) /\
   decode Samples.other_algorithm_token 1000 = Ok None) /\
  (raw Samples.alice_token 1061 = Raise (JWTError Expired) /\
   decode Samples.alice_token 1061 = Ok None) /\
  decode Samples.alice_token 1060 = Ok (Some "alice").
Proof. repeat split; vm_compute; reflexivity. Qed.

Lemma missing_sub_is_unauthenticated_witness :
  decode_access_token (jose := Reference.jose) Reference.settings
    Samples.no_sub_token 1000 = Ok None /\
  get_current_user_id (jose := Reference.jose) Reference.settings None
    (Samples.cookie_request Samples.no_sub_token) 1000 =
    Raise invalid_or_expired.
Proof.
  apply (missing_sub_is_unauthenticated (jose := Reference.jose)
           Reference.settings Samples.no_sub_token 1000
           {| exp := None; sub := None |} None
           (Samples.cookie_request Samples.no_sub_token)).
  - vm_compute. reflexivity.
  - reflexivity.
  - vm_compute. reflexivity.
  - vm_compute. reflexivity.
Defined.

(** ** The session resolvers *)

Section Resolvers.
Context {jose : Jose}.
Variable settings : Settings.

(** What [HTTPBearer] extracts from a [Bearer] header with a token. *)
Lemma security_bearer_header (request : Request) (h : string) :
  headers request !! "Authorization" = Some ("Bearer " +:+ h) ->
  truthy h = true ->
  security_bearer request = Some {| scheme := "Bearer"; credentials := h |}.
Proof.
  intros Hh Ht. unfold security_bearer. rewrite Hh.
  change (get_authorization_scheme_param (Some ("Bearer " +:+ h)))
    with ("Bearer", h).
  change (truthy_opt (Some ("Bearer " +:+ h))) with true.
  cbn [truthy andb]. rewrite Ht. reflexivity.
Qed.

(** Without an [Authorization] header [HTTPBearer] extracts nothing. *)
Lemma security_bearer_no_header (request : Request) :
  headers request !! "Authorization" = None ->
  security_bearer request = None.
Proof. intros Hh. unfold security_bearer. rewrite Hh. reflexivity. Qed.

(** C1, as the code has it: when a request carries both a [Bearer]
    header with a token and an access-token cookie, the required
    resolver takes the header token; the optional resolver takes the
    cookie token whenever the cookie is not empty and the header token
    only when it is. *)
Theorem header_cookie_precedence
    (request : Request) (h c : string) (now : Z) :
  headers request !! "Authorization" = Some ("Bearer " +:+ h) ->
  truthy h = true ->
  cookies request !! COOKIE_NAME = Some c ->
  current_user_id_token (security_bearer request) request = Some h /\
  optional_user_id_token request = Some (if truthy c then c else h) /\
  get_optional_user_id settings request now =
    decode_access_token settings (if truthy c then c else h) now.
Proof.
  intros Hh Ht Hc.
  assert (Hopt : optional_user_id_token request =
                 Some (if truthy c then c else h)).
  { unfold optional_user_id_token. rewrite Hc, Hh. simpl.
    destruct (truthy c); reflexivity. }
  split; [| split].
  - rewrite (security_bearer_header request h Hh Ht). reflexivity.
  - exact Hopt.
  - unfold get_optional_user_id. rewrite Hopt.
    destruct (truthy c) eqn:Hc'; cbn [negb]; [| rewrite Ht];
      rewrite ?Hc'; reflexivity.
Qed.



(** They also do when the request has a [Bearer] header with a token and
    no cookie. *)
Lemma same_candidate_header_only (request : Request) (h : string) :
  headers request !! "Authorization" = Some ("Bearer " +:+ h) ->
  truthy h = true ->
  cookies request !! COOKIE_NAME = None ->
  current_user_id_token (security_bearer request) request =
  optional_user_id_token request.
Proof.
  intros Hh Ht Hc. rewrite (security_bearer_header request h Hh Ht).
  unfold current_user_id_token, optional_user_id_token.
  rewrite Hc, Hh. reflexivity.
Qed.

(** C9: when the token is valid, so that the required resolver returns
    an identifier, and no row has this identifier, the full-user
    resolver fails with [User not found], leaves the table as it was,
    and this failure is neither of the two failures raised for a missing
    or an invalid token. *)
Theorem get_current_user_account_not_found
    (creds : option HTTPAuthorizationCredentials) (request : Request)
    (now : Z) (db : list User.t) (user_id : string) :
  get_current_user_id settings creds request now = Ok user_id ->
  (forall u, In u db -> User.id u <> user_id) ->
  get_current_user settings creds request now db =
    (Raise user_not_found, db) /\
  user_not_found <> not_authenticated /\
  user_not_found <> invalid_or_expired.
Proof.
  intros Hid Hnone. split; [| split; discriminate].
  unfold get_current_user, bind, pure_call, find_unique_id, raise.
  rewrite Hid.
  destruct (find _ db) as [u |] eqn:Hfind; [| reflexivity].
  apply find_some in Hfind as [Hin Heq].
  apply String.eqb_eq in Heq. exfalso. exact (Hnone u Hin Heq).
Qed.
End Resolvers.

Lemma header_cookie_precedence_witness :
  current_user_id_token (security_bearer Samples.both_request)
    Samples.both_request = Some Samples.alice_token /\
  optional_user_id_token Samples.both_request = Some Samples.bob_token /\
  get_optional_user_id (jose := Reference.jose) Reference.settings
    Samples.both_request 1000 =
  decode_access_token (jose := Reference.jose) Reference.settings
    Samples.bob_token 1000.
Proof.
  apply (header_cookie_precedence (jose := Reference.jose) Reference.settings
           Samples.both_request Samples.alice_token Samples.bob_token 1000).
  - vm_compute. reflexivity.
  - vm_compute. reflexivity.
  - vm_compute. reflexivity.
Defined.

(** C1 fails for the optional resolver: with Alice's token in the header
    and Bob's in the cookie it takes the cookie and resolves to Bob. *)
Lemma optional_resolver_prefers_cookie :
  headers Samples.both_request !! "Authorization" =
    Some ("Bearer " +:+ Samples.alice_token) /\
  cookies Samples.both_request !! COOKIE_NAME = Some Samples.bob_token /\
  Samples.bob_token <> Samples.alice_token /\
  optional_user_id_token Samples.both_request = Some Samples.bob_token /\
  decode_access_token (jose := Reference.jose) Reference.settings
    Samples.alice_token 1000 = Ok (Some "alice") /\
  get_optional_user_id (jose := Reference.jose) Reference.settings
    Samples.both_request 1000 = Ok (Some "bob").
Proof.
  repeat split; try (vm_compute; reflexivity).
  intros H. vm_compute in H. discriminate H.
Qed.



(** A token whose subject is empty: the required resolver fails and the
    optional one returns the empty identifier, which is not [None]. *)
Lemma optional_resolver_empty_subject :
  require_user_id (jose := Reference.jose) Reference.settings
    (Samples.cookie_request Samples.empty_subject_token) 1000 =
    Raise invalid_or_expired /\
  get_optional_user_id (jose := Reference.jose) Reference.settings
    (Samples.cookie_request Samples.empty_subject_token) 1000 =
    Ok (Some EmptyString).
Proof. split; vm_compute; reflexivity. Qed.

(** A lower-case scheme: [HTTPBearer] accepts it, [startswith("Bearer ")]
    does not. *)
Lemma optional_resolver_lower_case_scheme :
  let request :=
    {| headers := {[ "Authorization" := "bearer " +:+ Samples.alice_token ]};
       cookies := ∅ |} in
  require_user_id (jose := Reference.jose) Reference.settings request 1000 =
    Ok "alice" /\
  get_optional_user_id (jose := Reference.jose) Reference.settings
    request 1000 = Ok None.
Proof. split; vm_compute; reflexivity. Qed.

Lemma get_current_user_account_not_found_witness :
  get_current_user (jose := Reference.jose) Reference.settings None
    (Samples.cookie_request Samples.alice_token) 1000 Samples.one_user =
    (Raise user_not_found, Samples.one_user) /\
  user_not_found <> not_authenticated /\
  user_not_found <> invalid_or_expired.
Proof.
  apply (get_current_user_account_not_found (jose := Reference.jose)
           Reference.settings None
           (Samples.cookie_request Samples.alice_token) 1000
           Samples.one_user "alice").
  - vm_compute. reflexivity.
  - intros u [<- | []]. vm_compute. discriminate.
Defined.

(** ** The account service *)

Section LookupEmail.
Lemma lookup_email_none (e : string) (db : list User.t) :
  lookup_email e db = None <->
  (forall u, In u db -> User.email u <> e).
Proof.
  unfold lookup_email. split.
  - intros Hnone u Hin Heq.
    pose proof (find_none _ _ Hnone u Hin) as Hneq. cbv beta in Hneq.
    rewrite Heq, String.eqb_refl in Hneq. discriminate.
  - intros Hall.
    destruct (find _ db) as [u |] eqn:Hfind; [| reflexivity].
    apply find_some in Hfind as [Hin Heq].
    apply String.eqb_eq in Heq. destruct (Hall u Hin Heq).
Qed.

Lemma lookup_email_in (e : string) (db : list User.t) (u : User.t) :
  In u db -> User.email u = e ->
  exists v, lookup_email e db = Some v.
Proof.
  intros Hin Heq.
  destruct (lookup_email e db) as [v |] eqn:Hfind; [eauto |].
  destruct (proj1 (lookup_email_none e db) Hfind u Hin Heq).
Qed.

Lemma lookup_email_new (e : string) (db : list User.t) (u : User.t) :
  lookup_email e db = None -> User.email u = e ->
  lookup_email e (db ++ [u]) = Some u.
Proof.
  unfold lookup_email. intros Hnone Heq.
  induction db as [| v db IH]; simpl in *.
  - rewrite Heq, String.eqb_refl. reflexivity.
  - destruct (String.eqb (User.email v) e); [discriminate |].
    apply IH. exact Hnone.
Qed.
End LookupEmail.

Section AccountService.
Context {jose : Jose} {pwd_context : CryptContext} {ids : IdGenerator}.
Variable settings : Settings.

Local Abbreviation key := (secret_key settings).
Local Abbreviation alg := (algorithm settings).
Local Abbreviation ttl := (minutes (access_token_expire_minutes settings)).

(** The routes pass the configured TTL, so the expiry is [now + ttl]
    whether or not that TTL is zero. *)
Lemma effective_ttl_default : effective_ttl settings (Some ttl) = ttl.
Proof. unfold effective_ttl. destruct (ttl =? 0); reflexivity. Qed.

Lemma create_access_token_default (s : string) (now : Z) :
  in_datetime_range (now + ttl) ->
  create_access_token settings s (Some ttl) now =
  jwt_encode {| exp := Some (now + ttl); sub := Some s |} key alg.
Proof.
  intros Hrange. rewrite create_access_token_eq, effective_ttl_default.
  rewrite (datetime_add_in_range now ttl Hrange). reflexivity.
Qed.

Lemma create_access_token_default_ok (s token : string) (now : Z) :
  create_access_token settings s (Some ttl) now = Ok token ->
  jwt_encode {| exp := Some (now + ttl); sub := Some s |} key alg =
    Ok token.
Proof.
  intros Hcreate. apply create_access_token_ok in Hcreate as [_ Henc].
  rewrite effective_ttl_default in Henc. exact Henc.
Qed.

(** [signup], case by case. *)
Lemma signup_cases (body : SignUpRequest) (salt : string) (now : Z)
    (db : list User.t) :
  signup settings body salt now db =
  match lookup_email (signup_email body) db with
  | Some _ => (Raise email_already_registered, db)
  | None =>
      match hash_password (signup_password body) salt with
      | Raise e => (Raise e, db)
      | Ok h =>
          let u := new_user body h db in
          match create_access_token settings (User.id u) (Some ttl) now with
          | Ok tok => (Ok (bearer_token tok), db ++ [u])
          | Raise e => (Raise e, db ++ [u])
          end
      end
  end.
Proof.
  unfold signup, bind, find_unique_email, create, raise, pure_call, ret,
    lookup_email.
  destruct (find _ db) as [u |] eqn:Hfind; [reflexivity |].
  destruct (hash_password _ salt) as [h | e]; [| reflexivity].
  cbn beta. rewrite Hfind. cbn zeta. fold (new_user body h db).
  cbn [User.id new_user].
  destruct (create_access_token _ _ _ _); reflexivity.
Qed.

(** [signin], case by case. *)
Lemma signin_cases (body : SignInRequest) (now : Z) (db : list User.t) :
  signin settings body now db =
  match lookup_email (signin_email body) db with
  | None => (Raise invalid_email_or_password, db)
  | Some u =>
      match stored_hash u with
      | None => (Raise invalid_email_or_password, db)
      | Some h =>
          if truthy h then
            match verify_password (signin_password body) h with
            | Raise e => (Raise e, db)
            | Ok false => (Raise invalid_email_or_password, db)
            | Ok true =>
                match create_access_token settings (User.id u)
                        (Some ttl) now with
                | Ok tok => (Ok (bearer_token tok), db)
                | Raise e => (Raise e, db)
                end
            end
          else (Raise invalid_email_or_password, db)
      end
  end.
Proof.
  unfold signin, bind, find_unique_email, raise, pure_call, ret,
    lookup_email, stored_hash.
  destruct (find _ db) as [u |]; [| reflexivity].
  cbn [getattr].
  destruct (py_or _ _) as [h |]; [| reflexivity].
  destruct (truthy h); cbn [negb]; [| reflexivity].
  destruct (verify_password _ h) as [[|] | e]; reflexivity.
Qed.

(** [signin] never writes to the table. *)
Lemma signin_reads_only (body : SignInRequest) (now : Z)
    (db : list User.t) :
  snd (signin settings body now db) = db.
Proof.
  rewrite signin_cases.
  destruct (lookup_email _ db) as [u |]; [| reflexivity].
  destruct (stored_hash u) as [h |]; [| reflexivity].
  destruct (truthy h); [| reflexivity].
  destruct (verify_password _ h) as [[|] | e]; try reflexivity.
  destruct (create_access_token _ _ _ _); reflexivity.
Qed.

(** A failure of [signin] is the generic one unless a library raised. *)
Lemma signin_failure_origin (body : SignInRequest) (now : Z)
    (db db' : list User.t) (e : exn) :
  signin settings body now db = (Raise e, db') ->
  e = invalid_email_or_password \/
  (exists h, verify_password (signin_password body) h = Raise e) \/
  (exists s, create_access_token settings s (Some ttl) now = Raise e).
Proof.
  rewrite signin_cases.
  destruct (lookup_email _ db) as [u |]; [| intros [= <- _]; auto].
  destruct (stored_hash u) as [h |]; [| intros [= <- _]; auto].
  destruct (truthy h); [| intros [= <- _]; auto].
  destruct (verify_password _ h) as [[|] | e'] eqn:Hv.
  - destruct (create_access_token _ _ _ _) eqn:Hc; [discriminate |].
    intros [= <- _]. eauto.
  - intros [= <- _]. auto.
  - intros [= <- _]. eauto.
Qed.

(** An exception of the hasher goes through [signin] as it is. *)
Lemma signin_hasher_exception (body : SignInRequest) (now : Z)
    (db : list User.t) (u : User.t) (h : string) (e : exn) :
  lookup_email (signin_email body) db = Some u ->
  stored_hash u = Some h -> truthy h = true ->
  verify_password (signin_password body) h = Raise e ->
  signin settings body now db = (Raise e, db).
Proof.
  intros Hu Hh Ht Hv. rewrite signin_cases, Hu, Hh, Ht, Hv. reflexivity.
Qed.



(** C4: when the email already has an account, [signup] fails with the
    400 [Email already registered] and leaves the table, and so every
    stored hash, as it was; when [signup] succeeds the table has grown
    by exactly one row, which carries the email and the hash of the
    password, and no row had that email before; and [signup] does
    succeed on a fresh email once the password is hashed and the token
    is issued. *)
Theorem signup_duplicate_or_one_user
    (body : SignUpRequest) (salt : string) (now : Z) (db : list User.t) :
  (forall u, In u db -> User.email u = signup_email body ->
     signup settings body salt now db =
       (Raise (HTTPException 400 "Email already registered" None), db)) /\
  (forall tok db',
     signup settings body salt now db = (Ok tok, db') ->
     (forall v, In v db -> User.email v <> signup_email body) /\
     exists u h,
       db' = db ++ [u] /\ length db' = S (length db) /\
       User.email u = signup_email body /\
       hash_password (signup_password body) salt = Ok h /\
       stored_hash u = Some h) /\
  ((forall v, In v db -> User.email v <> signup_email body) ->
   forall h tok,
     hash_password (signup_password body) salt = Ok h ->
     create_access_token settings (new_id db) (Some ttl) now = Ok tok ->
     signup settings body salt now db =
       (Ok (bearer_token tok), db ++ [new_user body h db])).
Proof.
  rewrite signup_cases. split; [| split].
  - intros u Hin Heq.
    destruct (lookup_email_in _ _ _ Hin Heq) as [v ->]. reflexivity.
  - intros tok db'.
    destruct (lookup_email _ db) eqn:Hfind; [discriminate |].
    destruct (hash_password _ salt) as [h |] eqn:Hh; [| discriminate].
    cbn zeta.
    destruct (create_access_token _ _ _ _); [| discriminate].
    intros [= _ <-]. split; [apply lookup_email_none; exact Hfind |].
    exists (new_user body h db), h.
    rewrite length_app, Nat.add_1_r. repeat split; reflexivity.
  - intros Hfresh h tok Hh Htok.
    rewrite (proj2 (lookup_email_none _ _) Hfresh), Hh.
    cbn zeta. cbn [new_user User.id]. rewrite Htok. reflexivity.
Qed.


End AccountService.

Lemma signup_duplicate_or_one_user_witness :
  signup (jose := Reference.jose) (pwd_context := Reference.passlib)
    (ids := Reference.ids) Reference.settings Samples.ada_again "pepper"
    2000 Samples.one_user =
    (Raise (HTTPException 400 "Email already registered" None),
     Samples.one_user) /\
  (exists u, Samples.one_user = [] ++ [u] /\
             User.email u = "a@x.com") /\
  signup (jose := Reference.jose) (pwd_context := Reference.passlib)
    (ids := Reference.ids) Reference.settings Samples.ada "salt" 1000 [] =
    (Ok Samples.ada_token, Samples.one_user).
Proof.
  split; [| split].
  - apply (proj1 (signup_duplicate_or_one_user (jose := Reference.jose)
                    (pwd_context := Reference.passlib) (ids := Reference.ids)
                    Reference.settings Samples.ada_again "pepper" 2000
                    Samples.one_user) Samples.ada_row).
    + left. reflexivity.
    + reflexivity.
  - destruct (proj1 (proj2 (signup_duplicate_or_one_user
                              (jose := Reference.jose)
                              (pwd_context := Reference.passlib)
                              (ids := Reference.ids)
                              Reference.settings Samples.ada "salt" 1000 []))
                    Samples.ada_token Samples.one_user)
      as [_ (u & h & Hdb & _ & Hemail & _)].
    + vm_compute. reflexivity.
    + exists u. split; [exact Hdb | exact Hemail].
  - apply (proj2 (proj2 (signup_duplicate_or_one_user
                           (jose := Reference.jose)
                           (pwd_context := Reference.passlib)
                           (ids := Reference.ids)
                           Reference.settings Samples.ada "salt" 1000 []))
                 (fun v (H : In v []) => match H with end)
                 (Reference.hash_string "secret1" "salt")
                 (access_token Samples.ada_token)).
    + vm_compute. reflexivity.
    + vm_compute. reflexivity.
Defined.





(** With a stored hash that the context cannot identify, [signin] does not
    answer [Invalid email or password]: the exception of the hasher leaves
    the route. *)
Example signin_corrupt_hash :
  signin (jose := Reference.jose) (pwd_context := Reference.passlib)
    Reference.settings Samples.ada_right 2000 Samples.corrupt_user =
    (Raise (ValueError "hash could not be identified"), Samples.corrupt_user).
Proof. vm_compute. reflexivity. Qed.

(** With one token and one place to carry it the two resolvers agree. *)
Example resolvers_agree_header_only :
  require_user_id (jose := Reference.jose) Reference.settings
    (Samples.header_request Samples.alice_token) 1000 = Ok "alice" /\
  get_optional_user_id (jose := Reference.jose) Reference.settings
    (Samples.header_request Samples.alice_token) 1000 = Ok (Some "alice").
Proof. split; vm_compute; reflexivity. Qed.

(** ** More on the reference implementations *)

Module MoreReferenceFacts.
Import Reference.

End MoreReferenceFacts.

(** ** More on the token codec and the session resolvers *)

Section MoreResolvers.
Context {jose : Jose}.
Variable settings : Settings.

Local Abbreviation key := (secret_key settings).
Local Abbreviation alg := (algorithm settings).
Local Abbreviation default_ttl :=
  (minutes (access_token_expire_minutes settings)).

(** X1: [get_token] picks the candidate of the required resolver when the
    request has no [Authorization] header or a [Bearer] header with a
    token, and the candidate of the optional resolver when the request
    has no cookie or an empty one. *)
Theorem get_token_matches_resolvers (request : Request) :
  (headers request !! "Authorization" = None \/
   (exists h, headers request !! "Authorization" = Some ("Bearer " +:+ h) /\
              truthy h = true) ->
   get_token request =
     current_user_id_token (security_bearer request) request) /\
  (truthy_opt (cookies request !! COOKIE_NAME) = false ->
   get_token request = optional_user_id_token request).
Proof.
  split.
  - intros [Hnone | (h & Hh & Ht)].
    + rewrite (security_bearer_no_header request Hnone).
      unfold get_token. rewrite Hnone. reflexivity.
    + rewrite (security_bearer_header request h Hh Ht).
      unfold get_token. rewrite Hh. reflexivity.
  - intros Hc. unfold get_token, optional_user_id_token. rewrite Hc.
    cbn [negb].
    destruct (headers request !! "Authorization") as [a |]; reflexivity.
Qed.


(** X3: a request with no [Authorization] header and no cookie, or an
    empty one, is turned down by the required resolver with
    [Not authenticated] and gives [None] in the optional resolver,
    whatever the token library does. *)
Theorem no_token_is_unauthenticated (request : Request) (now : Z) :
  headers request !! "Authorization" = None ->
  truthy_opt (cookies request !! COOKIE_NAME) = false ->
  require_user_id settings request now = Raise not_authenticated /\
  get_optional_user_id settings request now = Ok None.
Proof.
  intros Hh Hc. split.
  - unfold require_user_id, get_current_user_id.
    rewrite (security_bearer_no_header request Hh).
    unfold current_user_id_token.
    destruct (cookies request !! COOKIE_NAME) as [c |]; [| reflexivity].
    simpl in Hc. rewrite Hc. reflexivity.
  - unfold get_optional_user_id, optional_user_id_token.
    rewrite Hc, Hh. cbn [negb].
    destruct (cookies request !! COOKIE_NAME) as [c |]; [| reflexivity].
    simpl in Hc. rewrite Hc. reflexivity.
Qed.

(** X4: a token presented in the cookie after its TTL has elapsed is
    turned down by the required resolver with [Invalid or expired token]
    and gives [None] in the optional resolver. *)
Theorem expired_cookie_is_rejected :
  codec_expiry key alg ->
  forall (s token : string) (t issued now : Z) (request : Request),
    t <> 0 ->
    create_access_token settings s (Some t) issued = Ok token ->
    issued + t < now ->
    truthy token = true ->
    headers request !! "Authorization" = None ->
    cookies request !! COOKIE_NAME = Some token ->
    require_user_id settings request now = Raise invalid_or_expired /\
    get_optional_user_id settings request now = Ok None.
Proof.
  intros Hexp s token t issued now request Ht Hcreate Hlate Htok Hh Hc.
  apply create_access_token_ok in Hcreate as [_ Henc].
  assert (Httl : effective_ttl settings (Some t) = t)
    by (unfold effective_ttl; destruct (Z.eqb_spec t 0);
        [contradiction | reflexivity]).
  rewrite Httl in Henc.
  destruct (Hexp {| exp := Some (issued + t); sub := Some s |}
                 (issued + t) now token eq_refl Hlate Henc)
    as [why Hwhy].
  assert (Hdec : decode_access_token settings token now = Ok None)
    by (unfold decode_access_token; rewrite Hwhy; reflexivity).
  split.
  - unfold require_user_id, get_current_user_id.
    rewrite (security_bearer_no_header request Hh).
    unfold current_user_id_token. rewrite Hc, Htok. cbn [negb].
    rewrite Hdec. reflexivity.
  - unfold get_optional_user_id, optional_user_id_token.
    rewrite Hc. cbn [truthy_opt]. rewrite Htok. cbn [negb].
    rewrite Htok. cbn [negb]. exact Hdec.
Qed.

(** X5: a token issued for a non-empty subject, with a positive TTL whose
    expiry does not pass year 9999, resolves to that subject until its TTL
    has elapsed: in a [Bearer] header for the required resolver, whatever
    the cookie, and in the cookie of a request without [Authorization]
    header for both resolvers. *)
Theorem issued_token_resolves :
  codec_round_trip key alg ->
  forall (s : string) (t issued now : Z),
    truthy s = true -> 0 < t ->
    in_datetime_range (issued + t) ->
    issued <= now <= issued + t ->
    exists token,
      create_access_token settings s (Some t) issued = Ok token /\
      (truthy token = true ->
       forall request,
         (headers request !! "Authorization" = Some ("Bearer " +:+ token) ->
          require_user_id settings request now = Ok s) /\
         (headers request !! "Authorization" = None ->
          cookies request !! COOKIE_NAME = Some token ->
          require_user_id settings request now = Ok s /\
          get_optional_user_id settings request now = Ok (Some s))).
Proof.
  intros Hcodec s t issued now Hs Ht Hrange Hnow.
  rewrite create_access_token_claims by (lia || exact Hrange).
  destruct (Hcodec {| exp := Some (issued + t); sub := Some s |} now)
    as (token & Henc & Hdec).
  { simpl. intros e [= <-]. lia. }
  exists token. split; [exact Henc |].
  assert (Hsub : decode_access_token settings token now = Ok (Some s))
    by (unfold decode_access_token; rewrite Hdec; reflexivity).
  intros Htok request. split.
  - intros Hh. unfold require_user_id, get_current_user_id.
    rewrite (security_bearer_header request token Hh Htok).
    cbn [current_user_id_token credentials]. rewrite Htok. cbn [negb].
    rewrite Hsub. cbn [truthy_opt]. rewrite Hs. reflexivity.
  - intros Hh Hc. split.
    + unfold require_user_id, get_current_user_id.
      rewrite (security_bearer_no_header request Hh).
      unfold current_user_id_token. rewrite Hc, Htok. cbn [negb].
      rewrite Hsub. cbn [truthy_opt]. rewrite Hs. reflexivity.
    + unfold get_optional_user_id, optional_user_id_token.
      rewrite Hc. cbn [truthy_opt]. rewrite Htok. cbn [negb].
      rewrite Htok. cbn [negb]. exact Hsub.
Qed.

(** X6: an [expires_delta] of zero is false, like [None]: the token gets
    the configured default TTL instead of expiring at once, and, when
    that expiry does not pass year 9999, decodes to its subject until
    the default has elapsed. *)
Theorem zero_ttl_uses_default :
  codec_round_trip key alg ->
  forall (s : string) (issued now : Z),
    in_datetime_range (issued + default_ttl) ->
    issued <= now <= issued + default_ttl ->
    create_access_token settings s (Some 0) issued =
      create_access_token settings s None issued /\
    exists token,
      create_access_token settings s (Some 0) issued = Ok token /\
      decode_access_token settings token now = Ok (Some s).
Proof.
  intros Hcodec s issued now Hrange Hnow. split; [reflexivity |].
  rewrite create_access_token_eq.
  change (effective_ttl settings (Some 0)) with default_ttl.
  rewrite (datetime_add_in_range issued default_ttl Hrange).
  destruct (Hcodec {| exp := Some (issued + default_ttl); sub := Some s |}
                   now) as (token & Henc & Hdec).
  { simpl. intros e [= <-]. lia. }
  exists token. split; [exact Henc |].
  unfold decode_access_token. rewrite Hdec. reflexivity.
Qed.
End MoreResolvers.


Lemma get_token_matches_resolvers_witness :
  get_token (Samples.header_request Samples.alice_token) =
    current_user_id_token
      (security_bearer (Samples.header_request Samples.alice_token))
      (Samples.header_request Samples.alice_token) /\
  get_token (Samples.header_request Samples.alice_token) =
    optional_user_id_token (Samples.header_request Samples.alice_token).
Proof.
  destruct (get_token_matches_resolvers
              (Samples.header_request Samples.alice_token)) as [Hreq Hopt].
  split.
  - apply Hreq. right. exists Samples.alice_token.
    split; vm_compute; reflexivity.
  - apply Hopt. vm_compute. reflexivity.
Defined.


Lemma no_token_is_unauthenticated_witness :
  require_user_id (jose := Reference.jose) Reference.settings
    MoreSamples.anonymous_request 1000 = Raise not_authenticated /\
  get_optional_user_id (jose := Reference.jose) Reference.settings
    MoreSamples.anonymous_request 1000 = Ok None.
Proof.
  apply (no_token_is_unauthenticated (jose := Reference.jose)
           Reference.settings MoreSamples.anonymous_request 1000);
    vm_compute; reflexivity.
Defined.

Lemma expired_cookie_is_rejected_witness :
  require_user_id (jose := Reference.jose) Reference.settings
    (Samples.cookie_request Samples.alice_token) 1061 =
    Raise invalid_or_expired /\
  get_optional_user_id (jose := Reference.jose) Reference.settings
    (Samples.cookie_request Samples.alice_token) 1061 = Ok None.
Proof.
  apply (expired_cookie_is_rejected (jose := Reference.jose)
           Reference.settings (ReferenceFacts.codec_expiry_ref _ _)
           "alice" Samples.alice_token 60 1000 1061
           (Samples.cookie_request Samples.alice_token)).
  - lia.
  - vm_compute. reflexivity.
  - lia.
  - vm_compute. reflexivity.
  - vm_compute. reflexivity.
  - vm_compute. reflexivity.
Defined.

Lemma issued_token_resolves_witness :
  require_user_id (jose := Reference.jose) Reference.settings
    Samples.both_request 1030 = Ok "alice" /\
  get_optional_user_id (jose := Reference.jose) Reference.settings
    (Samples.cookie_request Samples.alice_token) 1030 = Ok (Some "alice").
Proof.
  destruct (issued_token_resolves (jose := Reference.jose)
              Reference.settings ReferenceFacts.codec_round_trip_default
              "alice" 60 1000 1030 eq_refl)
    as (token & Hcreate & Hresolve);
    [lia | vm_compute; split; discriminate | lia |].
  assert (Htoken : Ok token = Ok Samples.alice_token)
    by (rewrite <- Hcreate; vm_compute; reflexivity).
  injection Htoken as ->.
  split.
  - apply (proj1 (Hresolve eq_refl Samples.both_request)).
    vm_compute. reflexivity.
  - apply (proj2 (Hresolve eq_refl
                    (Samples.cookie_request Samples.alice_token)));
      vm_compute; reflexivity.
Defined.

Lemma zero_ttl_uses_default_witness :
  create_access_token (jose := Reference.jose) Reference.settings
    "alice" (Some 0) 1000 =
  create_access_token (jose := Reference.jose) Reference.settings
    "alice" None 1000 /\
  exists token,
    create_access_token (jose := Reference.jose) Reference.settings
      "alice" (Some 0) 1000 = Ok token /\
    decode_access_token (jose := Reference.jose) Reference.settings
      token 5000 = Ok (Some "alice").
Proof.
  apply (zero_ttl_uses_default (jose := Reference.jose) Reference.settings
           ReferenceFacts.codec_round_trip_default "alice" 1000 5000).
  - vm_compute. split; discriminate.
  - vm_compute. split; discriminate.
Defined.


(** ** More on the account service *)

Lemma find_id_new (i : string) (db : list User.t) (u : User.t) :
  (forall v, In v db -> User.id v <> i) -> User.id u = i ->
  find (fun v => String.eqb (User.id v) i) (db ++ [u]) = Some u.
Proof.
  intros Hfresh Hid. induction db as [| v db IH]; simpl.
  - rewrite Hid, String.eqb_refl. reflexivity.
  - destruct (String.eqb_spec (User.id v) i) as [Heq | _].
    + destruct (Hfresh v (or_introl eq_refl) Heq).
    + apply IH. intros w Hw. apply Hfresh. right. exact Hw.
Qed.

Section MoreAccount.
Context {jose : Jose} {pwd_context : CryptContext} {ids : IdGenerator}.
Variable settings : Settings.

Local Abbreviation key := (secret_key settings).
Local Abbreviation alg := (algorithm settings).
Local Abbreviation ttl := (minutes (access_token_expire_minutes settings)).

(** X8: [signin] succeeds only for an email that has an account whose
    stored hash is not empty and verifies the password; the table is then
    as it was, and the answer is a [bearer] token issued for the
    identifier of that account. *)
Theorem signin_success_sound
    (body : SignInRequest) (now : Z) (db db' : list User.t) (tok : Token) :
  signin settings body now db = (Ok tok, db') ->
  db' = db /\
  exists u h,
    lookup_email (signin_email body) db = Some u /\
    stored_hash u = Some h /\ truthy h = true /\
    verify_password (signin_password body) h = Ok true /\
    token_type tok = "bearer" /\
    create_access_token settings (User.id u) (Some ttl) now =
      Ok (access_token tok).
Proof.
  rewrite signin_cases.
  destruct (lookup_email _ db) as [u |]; [| discriminate].
  destruct (stored_hash u) as [h |] eqn:Hh; [| discriminate].
  destruct (truthy h) eqn:Ht; [| discriminate].
  destruct (verify_password _ h) as [[|] | e] eqn:Hv; try discriminate.
  destruct (create_access_token _ _ _ _) as [t |] eqn:Hc; [| discriminate].
  intros [= <- <-]. split; [reflexivity |].
  exists u, h. repeat split; auto.
Qed.

(** X9: on an email that has no account yet, for a password of a size the
    hasher accepts, an expiry that does not pass year 9999 and a token
    library that round-trips, [signup] succeeds: it appends the new row
    and answers a [bearer] token that decodes, until the configured TTL
    has elapsed, to the identifier of that row. *)
Theorem signup_issues_token :
  hash_accepts_bounded ->
  codec_round_trip key alg ->
  forall (body : SignUpRequest) (salt : string) (now now' : Z)
         (db : list User.t),
    (forall v, In v db -> User.email v <> signup_email body) ->
    (String.length (signup_password body) <= MAX_PASSWORD_SIZE)%nat ->
    in_datetime_range (now + ttl) ->
    now <= now' <= now + ttl ->
    exists h tok,
      hash_password (signup_password body) salt = Ok h /\
      signup settings body salt now db =
        (Ok tok, db ++ [new_user body h db]) /\
      token_type tok = "bearer" /\
      decode_access_token settings (access_token tok) now' =
        Ok (Some (new_id db)).
Proof.
  intros Hhasher Hcodec body salt now now' db Hfresh Hlen Hrange Hnow.
  destruct (Hhasher (signup_password body) salt Hlen) as [h Hh].
  destruct (Hcodec {| exp := Some (now + ttl); sub := Some (new_id db) |}
                   now') as (token & Henc & Hdec).
  { simpl. intros e [= <-]. lia. }
  exists h, (bearer_token token). split; [exact Hh |]. split.
  - rewrite signup_cases, (proj2 (lookup_email_none _ _) Hfresh).
    unfold hash_password in *. rewrite Hh.
    cbn zeta. cbn [new_user User.id].
    rewrite (create_access_token_default _ _ _ Hrange), Henc. reflexivity.
  - split; [reflexivity |].
    unfold decode_access_token. cbn [bearer_token access_token].
    rewrite Hdec. reflexivity.
Qed.

(** X10: once [signup] has succeeded for an email, every later [signup]
    with that email, whatever the password, fails with
    [Email already registered] and leaves the table as the first one
    left it. *)
Theorem second_signup_rejected
    (first second : SignUpRequest) (salt salt' : string) (now now' : Z)
    (db db1 : list User.t) (tok : Token) :
  signup settings first salt now db = (Ok tok, db1) ->
  signup_email second = signup_email first ->
  signup settings second salt' now' db1 =
    (Raise email_already_registered, db1).
Proof.
  rewrite signup_cases.
  destruct (lookup_email (signup_email first) db) eqn:Hfind;
    [discriminate |].
  destruct (hash_password _ salt) as [h |]; [| discriminate].
  cbn zeta. destruct (create_access_token _ _ _ now); [| discriminate].
  intros [= _ <-] Hemail.
  rewrite signup_cases, Hemail.
  rewrite (lookup_email_new _ db (new_user first h db) Hfind eq_refl).
  reflexivity.
Qed.

(** X11: whatever its outcome, [signup] leaves the table as it was or
    with the one new row appended, which carries the hash of the
    password; it never removes or changes a row, and keeps the emails of
    the table pairwise distinct. *)
Theorem signup_keeps_emails_unique
    (body : SignUpRequest) (salt : string) (now : Z) (db : list User.t) :
  (snd (signup settings body salt now db) = db \/
   exists h,
     hash_password (signup_password body) salt = Ok h /\
     snd (signup settings body salt now db) = db ++ [new_user body h db]) /\
  (NoDup (map User.email db) ->
   NoDup (map User.email (snd (signup settings body salt now db)))).
Proof.
  rewrite signup_cases.
  destruct (lookup_email (signup_email body) db) eqn:Hfind.
  - split; [left; reflexivity | intros H; exact H].
  - destruct (hash_password _ salt) as [h |] eqn:Hh.
    2:{ split; [left; reflexivity | intros H; exact H]. }
    cbn zeta.
    assert (Hsnd : snd (match create_access_token settings
                                (User.id (new_user body h db))
                                (Some ttl) now with
                        | Ok tok =>
                            (Ok (bearer_token tok),
                             db ++ [new_user body h db])
                        | Raise e => (Raise e, db ++ [new_user body h db])
                        end) = db ++ [new_user body h db])
      by (destruct (create_access_token _ _ _ _); reflexivity).
    rewrite Hsnd. split; [right; exists h; auto |].
    intros Hnodup. rewrite map_app. apply NoDup_app.
    split; [exact Hnodup |]. split; [| apply NoDup_singleton].
    intros e He Hin. cbn in Hin. apply list_elem_of_singleton in Hin.
    apply list_elem_of_In, in_map_iff in He as (v & Hv & Hin').
    apply (proj1 (lookup_email_none _ _) Hfind v Hin').
    rewrite Hv, Hin. reflexivity.
Qed.

(** X12: [signup] stores the row before it issues the token.  When the
    password has been hashed and issuing the token raises, [signup]
    raises the same exception with the new row already in the table, and
    a second attempt with that email is turned down as a duplicate. *)
Theorem signup_not_atomic
    (body retry : SignUpRequest) (salt salt' h : string) (now now' : Z)
    (db : list User.t) (e : exn) :
  (forall v, In v db -> User.email v <> signup_email body) ->
  hash_password (signup_password body) salt = Ok h ->
  create_access_token settings (new_id db) (Some ttl) now = Raise e ->
  signup_email retry = signup_email body ->
  signup settings body salt now db =
    (Raise e, db ++ [new_user body h db]) /\
  signup settings retry salt' now' (db ++ [new_user body h db]) =
    (Raise email_already_registered, db ++ [new_user body h db]).
Proof.
  intros Hfresh Hh Hraise Hemail.
  pose proof (proj2 (lookup_email_none _ _) Hfresh) as Hfind.
  split.
  - rewrite signup_cases, Hfind, Hh. cbn zeta. cbn [new_user User.id].
    rewrite Hraise. reflexivity.
  - rewrite signup_cases, Hemail.
    rewrite (lookup_email_new _ db (new_user body h db) Hfind eq_refl).
    reflexivity.
Qed.

(** X13: the full-user resolver only reads the table; when it returns a
    user, that user is a row of the table whose identifier is the one the
    required resolver returned; and when the required resolver fails, it
    fails with the same exception without looking into the table. *)
Theorem get_current_user_sound
    (creds : option HTTPAuthorizationCredentials) (request : Request)
    (now : Z) (db : list User.t) :
  snd (get_current_user settings creds request now db) = db /\
  (forall u db',
     get_current_user settings creds request now db = (Ok u, db') ->
     In u db /\
     get_current_user_id settings creds request now = Ok (User.id u)) /\
  (forall e,
     get_current_user_id settings creds request now = Raise e ->
     get_current_user settings creds request now db = (Raise e, db)).
Proof.
  unfold get_current_user, bind, pure_call, find_unique_id, raise, ret.
  destruct (get_current_user_id settings creds request now)
    as [user_id | e0].
  - destruct (find _ db) as [u |] eqn:Hfind.
    + split; [reflexivity |]. split; [| discriminate].
      intros u' db' [= <- <-].
      apply find_some in Hfind as [Hin Heq].
      apply String.eqb_eq in Heq. rewrite Heq. auto.
    + split; [reflexivity |]. split; discriminate.
  - split; [reflexivity |]. split; [discriminate |].
    intros e [= <-]. reflexivity.
Qed.

(** X14: the token that [signup] returns opens [GET /auth/me] for the new
    account: presented in a [Bearer] header before the TTL has elapsed,
    on the table [signup] left, it gives the identifier and the email of
    the new row and leaves the table alone, provided the hasher accepts
    the size of the password, the expiry does not pass year 9999, and
    the new identifier is not empty and is not the identifier of an older
    row. *)
Theorem me_after_signup :
  hash_accepts_bounded ->
  codec_round_trip key alg ->
  forall (body : SignUpRequest) (salt : string) (now now' : Z)
         (db : list User.t) (request : Request),
    (forall v, In v db -> User.email v <> signup_email body) ->
    (forall v, In v db -> User.id v <> new_id db) ->
    truthy (new_id db) = true ->
    (String.length (signup_password body) <= MAX_PASSWORD_SIZE)%nat ->
    in_datetime_range (now + ttl) ->
    now <= now' <= now + ttl ->
    exists tok db1,
      signup settings body salt now db = (Ok tok, db1) /\
      (truthy (access_token tok) = true ->
       headers request !! "Authorization" =
         Some ("Bearer " +:+ access_token tok) ->
       me_route settings request now' db1 =
         (Ok [("id", new_id db); ("email", signup_email body)], db1)).
Proof.
  intros Hhasher Hcodec body salt now now' db request Hemail Hid Hne
         Hlen Hrange Hnow.
  destruct (Hhasher (signup_password body) salt Hlen) as [h Hh].
  destruct (Hcodec {| exp := Some (now + ttl); sub := Some (new_id db) |}
                   now') as (token & Henc & Hdec).
  { simpl. intros e [= <-]. lia. }
  exists (bearer_token token), (db ++ [new_user body h db]).
  split.
  { rewrite signup_cases, (proj2 (lookup_email_none _ _) Hemail).
    unfold hash_password in *. rewrite Hh.
    cbn zeta. cbn [new_user User.id].
    rewrite (create_access_token_default _ _ _ Hrange), Henc. reflexivity. }
  cbn [bearer_token access_token]. intros Htok Hh'.
  unfold me_route, get_current_user, bind, pure_call, find_unique_id, ret,
    get_current_user_id.
  rewrite (security_bearer_header request _ Hh' Htok).
  cbn [current_user_id_token credentials]. rewrite Htok. cbn [negb].
  unfold decode_access_token. rewrite Hdec.
  cbn [sub truthy_opt]. rewrite Hne. cbn [negb].
  rewrite (find_id_new (new_id db) db (new_user body h db) Hid eq_refl).
  reflexivity.
Qed.
End MoreAccount.

(** ** The HTML forms and the guarded page *)

Section MorePages.
Context {jose : Jose} {pwd_context : CryptContext} {ids : IdGenerator}
        {traceback : Traceback}.
Variable settings : Settings.

Local Abbreviation key := (secret_key settings).
Local Abbreviation alg := (algorithm settings).
Local Abbreviation ttl := (minutes (access_token_expire_minutes settings)).

(** [login_submit], case by case. *)
Lemma login_cases (request : Request) (email password : string) (now : Z)
    (db : list User.t) :
  login_submit settings request email password now db =
  match lookup_email email db with
  | None => (Ok (login_rejected request), db)
  | Some u =>
      match stored_hash u with
      | None => (Ok (login_rejected request), db)
      | Some h =>
          if truthy h then
            match verify_password password h with
            | Raise e => (Raise e, db)
            | Ok false => (Ok (login_rejected request), db)
            | Ok true =>
                match create_access_token settings (User.id u)
                        (Some ttl) now with
                | Ok token => (Ok (logged_in settings token), db)
                | Raise e => (Raise e, db)
                end
            end
          else (Ok (login_rejected request), db)
      end
  end.
Proof.
  unfold login_submit, bind, find_unique_email, pure_call, ret,
    lookup_email, stored_hash.
  destruct (find _ db) as [u |]; [| reflexivity].
  cbn [getattr].
  destruct (py_or _ _) as [h |]; [| reflexivity].
  destruct (truthy h); cbn [negb]; [| reflexivity].
  destruct (verify_password _ h) as [[|] | e]; reflexivity.
Qed.

(** [signup_submit], case by case. *)
Lemma signup_submit_cases (request : Request) (email password salt : string)
    (now : Z) (db : list User.t) :
  let body := {| signup_email := email; signup_password := password |} in
  signup_submit settings request email password salt now db =
  match lookup_email email db with
  | Some _ => (Ok (signup_rejected request), db)
  | None =>
      match hash_password password salt with
      | Raise e =>
          (Ok (PlainTextResponse (format_exc e) 500 "text/plain"), db)
      | Ok h =>
          match create_access_token settings (new_id db) (Some ttl) now with
          | Ok token =>
              (Ok (logged_in settings token), db ++ [new_user body h db])
          | Raise e =>
              (Ok (PlainTextResponse (format_exc e) 500 "text/plain"),
               db ++ [new_user body h db])
          end
      end
  end.
Proof.
  unfold signup_submit, try_except, bind, find_unique_email, create,
    pure_call, ret, lookup_email.
  destruct (find _ db) as [u |] eqn:Hfind; [reflexivity |].
  destruct (hash_password password salt) as [h | e]; [| reflexivity].
  cbn beta. rewrite Hfind. cbn zeta. cbn [User.id].
  destruct (create_access_token _ _ _ _); reflexivity.
Qed.

(** X15: the sign-in form turns a request down, in each of the three
    cases in which [signin] does, with the one page that says
    [Invalid email or password], as a normal response; it logs in exactly
    when [signin] succeeds, with a cookie that carries the token [signin]
    returns; and it never writes to the table. *)
Theorem login_submit_mirrors_signin
    (request : Request) (email password : string) (now : Z)
    (db : list User.t) :
  let body := {| signin_email := email; signin_password := password |} in
  (unknown_email body db \/ lacks_hash body db \/ wrong_password body db ->
   login_submit settings request email password now db =
     (Ok (login_rejected request), db)) /\
  (forall tok db',
     signin settings body now db = (Ok tok, db') ->
     login_submit settings request email password now db =
       (Ok (logged_in settings (access_token tok)), db)) /\
  (forall resp db',
     login_submit settings request email password now db = (Ok resp, db') ->
     db' = db /\
     (resp = login_rejected request \/
      exists tok,
        signin settings body now db = (Ok tok, db) /\
        resp = logged_in settings (access_token tok))).
Proof.
  cbn zeta. rewrite login_cases, signin_cases.
  unfold unknown_email, lacks_hash, wrong_password.
  cbn [signin_email signin_password].
  destruct (lookup_email email db) as [u |].
  2:{ split; [reflexivity |]. split; [discriminate |].
      intros resp db' [= <- <-]. auto. }
  destruct (stored_hash u) as [h |] eqn:Hh.
  2:{ split; [reflexivity |]. split; [discriminate |].
      intros resp db' [= <- <-]. auto. }
  destruct (truthy h) eqn:Ht.
  2:{ split; [reflexivity |]. split; [discriminate |].
      intros resp db' [= <- <-]. auto. }
  destruct (verify_password password h) as [[|] | e] eqn:Hv.
  - destruct (create_access_token _ _ _ _) as [token |] eqn:Hc.
    + split; [| split].
      * intros [Hu | [(v & Hu & Hl) | (v & g & Hu & Hg & _ & Hw)]].
        -- discriminate.
        -- injection Hu as <-. rewrite Hh in Hl. simpl in Hl.
           rewrite Ht in Hl. discriminate.
        -- injection Hu as <-. rewrite Hh in Hg. injection Hg as <-.
           rewrite Hv in Hw. discriminate.
      * intros tok db' [= <- <-]. reflexivity.
      * intros resp db' [= <- <-]. split; [reflexivity |]. right.
        exists (bearer_token token). split; reflexivity.
    + split; [| split; discriminate].
      intros [Hu | [(v & Hu & Hl) | (v & g & Hu & Hg & _ & Hw)]].
      * discriminate.
      * injection Hu as <-. rewrite Hh in Hl. simpl in Hl.
        rewrite Ht in Hl. discriminate.
      * injection Hu as <-. rewrite Hh in Hg. injection Hg as <-.
        rewrite Hv in Hw. discriminate.
  - split; [reflexivity |]. split; [discriminate |].
    intros resp db' [= <- <-]. auto.
  - split; [| split; discriminate].
    intros [Hu | [(v & Hu & Hl) | (v & g & Hu & Hg & _ & Hw)]].
    + discriminate.
    + injection Hu as <-. rewrite Hh in Hl. simpl in Hl.
      rewrite Ht in Hl. discriminate.
    + injection Hu as <-. rewrite Hh in Hg. injection Hg as <-.
      rewrite Hv in Hw. discriminate.
Qed.

(** X16: the cookie of a successful sign-in opens the guarded pages for
    as long as the browser keeps it: on a request without [Authorization]
    header that carries this cookie, at any instant within its [max_age],
    the optional resolver gives the identifier of the account and the
    page of a new event is served. *)
Theorem login_cookie_opens_backend :
  codec_round_trip key alg ->
  forall (request later : Request) (email password token : string)
         (now now' : Z) (db db' : list User.t),
    login_submit settings request email password now db =
      (Ok (logged_in settings token), db') ->
    truthy token = true ->
    headers later !! "Authorization" = None ->
    cookies later !! SetCookie.key (session_cookie settings token) =
      Some (SetCookie.value (session_cookie settings token)) ->
    now <= now' <= now + SetCookie.max_age (session_cookie settings token) ->
    exists u,
      lookup_email email db = Some u /\
      get_optional_user_id settings later now' = Ok (Some (User.id u)) /\
      backend_new_event_page settings later now' = Ok (event_form later).
Proof.
  intros Hcodec request later email password token now now' db db'
         Hlogin Htok Hh Hc Hnow.
  cbn [session_cookie SetCookie.key SetCookie.value SetCookie.max_age]
    in Hc, Hnow.
  rewrite login_cases in Hlogin.
  destruct (lookup_email email db) as [u |]; [| discriminate].
  destruct (stored_hash u) as [h |]; [| discriminate].
  destruct (truthy h); [| discriminate].
  destruct (verify_password password h) as [[|] | e]; try discriminate.
  destruct (create_access_token _ _ _ _) as [t |] eqn:Hcreate;
    [| discriminate].
  assert (t = token) as ->
    by (unfold logged_in, session_cookie in Hlogin; congruence).
  apply create_access_token_default_ok in Hcreate.
  destruct (Hcodec {| exp := Some (now + ttl); sub := Some (User.id u) |}
                   now') as (token' & Henc & Hdec).
  { simpl. intros e [= <-]. unfold minutes. lia. }
  rewrite Hcreate in Henc. injection Henc as <-.
  assert (Hopt : get_optional_user_id settings later now' =
                 Ok (Some (User.id u))).
  { unfold get_optional_user_id, optional_user_id_token.
    rewrite Hc. cbn [truthy_opt]. rewrite Htok. cbn [negb].
    rewrite Htok. cbn [negb].
    unfold decode_access_token. rewrite Hdec. reflexivity. }
  exists u. split; [reflexivity |]. split; [exact Hopt |].
  unfold backend_new_event_page. rewrite Hopt. reflexivity.
Qed.

(** X17: the sign-up form never raises: a taken email gives the page that
    says so and leaves the table alone, a token that cannot be issued
    gives a 500 plain-text response, and otherwise the form logs the new
    account in with the token [signup] returns; in every case it leaves
    the table as [signup] does. *)
Theorem signup_submit_never_raises
    (request : Request) (email password salt : string) (now : Z)
    (db : list User.t) :
  let body := {| signup_email := email; signup_password := password |} in
  (exists resp,
     fst (signup_submit settings request email password salt now db) =
       Ok resp) /\
  snd (signup_submit settings request email password salt now db) =
    snd (signup settings body salt now db) /\
  (forall u, In u db -> User.email u = email ->
     signup_submit settings request email password salt now db =
       (Ok (signup_rejected request), db)) /\
  (forall tok db',
     signup settings body salt now db = (Ok tok, db') ->
     signup_submit settings request email password salt now db =
       (Ok (logged_in settings (access_token tok)), db')) /\
  (forall e db',
     signup settings body salt now db = (Raise e, db') ->
     e = email_already_registered /\ db' = db \/
     signup_submit settings request email password salt now db =
       (Ok (PlainTextResponse (format_exc e) 500 "text/plain"), db')).
Proof.
  cbn zeta. rewrite signup_submit_cases, signup_cases.
  cbn [signup_email signup_password].
  destruct (lookup_email email db) as [v |] eqn:Hfind.
  - split; [eauto |]. split; [reflexivity |].
    split; [reflexivity |]. split; [discriminate |].
    intros e db' [= <- <-]. left. auto.
  - destruct (hash_password password salt) as [h | e1].
    2:{ split; [eauto |]. split; [reflexivity |]. split.
        - intros u Hin Heq.
          destruct (proj1 (lookup_email_none _ _) Hfind u Hin Heq).
        - split; [discriminate |].
          intros e db' [= <- <-]. right. reflexivity. }
    cbn zeta. cbn [new_user User.id].
    destruct (create_access_token _ _ _ _) as [token | e0].
    + split; [eauto |]. split; [reflexivity |]. split.
      * intros u Hin Heq.
        destruct (proj1 (lookup_email_none _ _) Hfind u Hin Heq).
      * split; [| discriminate]. intros tok db' [= <- <-]. reflexivity.
    + split; [eauto |]. split; [reflexivity |]. split.
      * intros u Hin Heq.
        destruct (proj1 (lookup_email_none _ _) Hfind u Hin Heq).
      * split; [discriminate |]. intros e db' [= <- <-]. right. reflexivity.
Qed.


(** X19: when the hasher raises on the stored hash of the account, both
    the API route and the sign-in form let that exception through,
    instead of their [Invalid email or password], and leave the table as
    it was. *)
Theorem hasher_exception_reaches_caller
    (request : Request) (email password : string) (now : Z)
    (db : list User.t) (u : User.t) (h : string) (e : exn) :
  lookup_email email db = Some u ->
  stored_hash u = Some h -> truthy h = true ->
  verify_password password h = Raise e ->
  signin settings {| signin_email := email; signin_password := password |}
         now db = (Raise e, db) /\
  login_submit settings request email password now db = (Raise e, db).
Proof.
  intros Hu Hh Ht Hv. rewrite signin_cases, login_cases.
  cbn [signin_email signin_password].
  rewrite Hu, Hh, Ht, Hv. split; reflexivity.
Qed.
End MorePages.

Lemma signin_success_sound_witness :
  Samples.one_user = Samples.one_user /\
  exists u h,
    lookup_email "a@x.com" Samples.one_user = Some u /\
    stored_hash u = Some h /\ truthy h = true /\
    verify_password (pwd_context := Reference.passlib) "secret1" h =
      Ok true /\
    token_type (bearer_token MoreSamples.ada_login_token) = "bearer" /\
    create_access_token (jose := Reference.jose) Reference.settings
      (User.id u) (Some 86400) 2000 = Ok MoreSamples.ada_login_token.
Proof.
  apply (signin_success_sound (jose := Reference.jose)
           (pwd_context := Reference.passlib) Reference.settings
           Samples.ada_right 2000 Samples.one_user Samples.one_user
           (bearer_token MoreSamples.ada_login_token)).
  vm_compute. reflexivity.
Defined.

Lemma signup_issues_token_witness :
  exists h tok,
    hash_password (pwd_context := Reference.passlib) "secret1" "salt" =
      Ok h /\
    signup (jose := Reference.jose) (pwd_context := Reference.passlib)
      (ids := Reference.ids) Reference.settings Samples.ada "salt" 1000 [] =
      (Ok tok, [] ++ [new_user (ids := Reference.ids) Samples.ada h []]) /\
    token_type tok = "bearer" /\
    decode_access_token (jose := Reference.jose) Reference.settings
      (access_token tok) 5000 =
      Ok (Some (new_id (IdGenerator := Reference.ids) [])).
Proof.
  apply (signup_issues_token (jose := Reference.jose)
           (pwd_context := Reference.passlib) (ids := Reference.ids)
           Reference.settings ReferenceFacts.hash_accepts_bounded_ref
           ReferenceFacts.codec_round_trip_default
           Samples.ada "salt" 1000 5000 []).
  - intros v [].
  - vm_compute. lia.
  - vm_compute. split; discriminate.
  - vm_compute. split; discriminate.
Defined.

Lemma second_signup_rejected_witness :
  signup (jose := Reference.jose) (pwd_context := Reference.passlib)
    (ids := Reference.ids) Reference.settings Samples.ada_again "pepper"
    2000 Samples.one_user =
    (Raise email_already_registered, Samples.one_user).
Proof.
  apply (second_signup_rejected (jose := Reference.jose)
           (pwd_context := Reference.passlib) (ids := Reference.ids)
           Reference.settings Samples.ada Samples.ada_again "salt" "pepper"
           1000 2000 [] Samples.one_user Samples.ada_token).
  - vm_compute. reflexivity.
  - reflexivity.
Defined.

Lemma signup_keeps_emails_unique_witness :
  NoDup (map User.email
           (snd (signup (jose := Reference.jose)
                   (pwd_context := Reference.passlib) (ids := Reference.ids)
                   Reference.settings Samples.ada_again "pepper" 2000
                   Samples.one_user))).
Proof.
  apply (proj2 (signup_keeps_emails_unique (jose := Reference.jose)
                  (pwd_context := Reference.passlib) (ids := Reference.ids)
                  Reference.settings Samples.ada_again "pepper" 2000
                  Samples.one_user)).
  vm_compute. apply NoDup_singleton.
Defined.

Lemma signup_not_atomic_witness :
  signup (jose := Reference.jose) (pwd_context := Reference.passlib)
    (ids := Reference.ids) MoreSamples.broken_settings Samples.ada "salt"
    1000 [] =
    (Raise (JWSError "Algorithm not supported."),
     [] ++ [MoreSamples.ada_row_broken]) /\
  signup (jose := Reference.jose) (pwd_context := Reference.passlib)
    (ids := Reference.ids) MoreSamples.broken_settings Samples.ada_again
    "pepper" 2000 ([] ++ [MoreSamples.ada_row_broken]) =
    (Raise email_already_registered, [] ++ [MoreSamples.ada_row_broken]).
Proof.
  apply (signup_not_atomic (jose := Reference.jose)
           (pwd_context := Reference.passlib) (ids := Reference.ids)
           MoreSamples.broken_settings Samples.ada Samples.ada_again
           "salt" "pepper" (Reference.hash_string "secret1" "salt")
           1000 2000 [] (JWSError "Algorithm not supported.")).
  - intros v [].
  - vm_compute. reflexivity.
  - vm_compute. reflexivity.
  - reflexivity.
Defined.

Lemma get_current_user_sound_witness :
  In Samples.ada_row Samples.one_user /\
  get_current_user_id (jose := Reference.jose) Reference.settings None
    (Samples.cookie_request MoreSamples.ada_login_token) 3000 =
    Ok (User.id Samples.ada_row).
Proof.
  apply (proj1 (proj2 (get_current_user_sound (jose := Reference.jose)
                         Reference.settings None
                         (Samples.cookie_request MoreSamples.ada_login_token)
                         3000 Samples.one_user))
               Samples.ada_row Samples.one_user).
  vm_compute. reflexivity.
Defined.

Lemma me_after_signup_witness :
  me_route (jose := Reference.jose) Reference.settings
    (Samples.header_request (access_token Samples.ada_token)) 5000
    Samples.one_user =
    (Ok [("id", User.id Samples.ada_row); ("email", "a@x.com")],
     Samples.one_user).
Proof.
  destruct (me_after_signup (jose := Reference.jose)
              (pwd_context := Reference.passlib) (ids := Reference.ids)
              Reference.settings ReferenceFacts.hash_accepts_bounded_ref
              ReferenceFacts.codec_round_trip_default
              Samples.ada "salt" 1000 5000 []
              (Samples.header_request (access_token Samples.ada_token)))
    as (tok & db1 & Hsignup & Hme).
  - intros v [].
  - intros v [].
  - reflexivity.
  - vm_compute. lia.
  - vm_compute. split; discriminate.
  - vm_compute. split; discriminate.
  - assert (Heq : (Ok tok, db1) = (Ok Samples.ada_token, Samples.one_user))
      by (rewrite <- Hsignup; vm_compute; reflexivity).
    injection Heq as -> ->.
    apply Hme; vm_compute; reflexivity.
Defined.

Lemma login_submit_mirrors_signin_witness :
  login_submit (jose := Reference.jose) (pwd_context := Reference.passlib)
    Reference.settings MoreSamples.anonymous_request "z@x.com" "secret1"
    2000 Samples.one_user =
    (Ok (login_rejected MoreSamples.anonymous_request), Samples.one_user) /\
  login_submit (jose := Reference.jose) (pwd_context := Reference.passlib)
    Reference.settings MoreSamples.anonymous_request "a@x.com" "secret1"
    2000 Samples.one_user =
    (Ok (logged_in Reference.settings MoreSamples.ada_login_token),
     Samples.one_user).
Proof.
  split.
  - apply (proj1 (login_submit_mirrors_signin (jose := Reference.jose)
                    (pwd_context := Reference.passlib) Reference.settings
                    MoreSamples.anonymous_request "z@x.com" "secret1" 2000
                    Samples.one_user)).
    left. vm_compute. reflexivity.
  - apply (proj1 (proj2 (login_submit_mirrors_signin
                           (jose := Reference.jose)
                           (pwd_context := Reference.passlib)
                           Reference.settings MoreSamples.anonymous_request
                           "a@x.com" "secret1" 2000 Samples.one_user))
                 (bearer_token MoreSamples.ada_login_token)
                 Samples.one_user).
    vm_compute. reflexivity.
Defined.

Lemma login_cookie_opens_backend_witness :
  exists u,
    lookup_email "a@x.com" Samples.one_user = Some u /\
    get_optional_user_id (jose := Reference.jose) Reference.settings
      (Samples.cookie_request MoreSamples.ada_login_token) 50000 =
      Ok (Some (User.id u)) /\
    backend_new_event_page (jose := Reference.jose) Reference.settings
      (Samples.cookie_request MoreSamples.ada_login_token) 50000 =
      Ok (event_form (Samples.cookie_request MoreSamples.ada_login_token)).
Proof.
  apply (login_cookie_opens_backend (jose := Reference.jose)
           (pwd_context := Reference.passlib) Reference.settings
           ReferenceFacts.codec_round_trip_default
           MoreSamples.anonymous_request
           (Samples.cookie_request MoreSamples.ada_login_token)
           "a@x.com" "secret1" MoreSamples.ada_login_token 2000 50000
           Samples.one_user Samples.one_user).
  - vm_compute. reflexivity.
  - vm_compute. reflexivity.
  - vm_compute. reflexivity.
  - vm_compute. reflexivity.
  - vm_compute. split; discriminate.
Defined.

Lemma signup_submit_never_raises_witness :
  signup_submit (jose := Reference.jose) (pwd_context := Reference.passlib)
    (ids := Reference.ids) (traceback := MoreSamples.traceback)
    Reference.settings MoreSamples.anonymous_request "a@x.com" "secret2"
    "pepper" 2000 Samples.one_user =
    (Ok (signup_rejected MoreSamples.anonymous_request), Samples.one_user) /\
  signup_submit (jose := Reference.jose) (pwd_context := Reference.passlib)
    (ids := Reference.ids) (traceback := MoreSamples.traceback)
    Reference.settings MoreSamples.anonymous_request "a@x.com" "secret1"
    "salt" 1000 [] =
    (Ok (logged_in Reference.settings (access_token Samples.ada_token)),
     Samples.one_user) /\
  signup_submit (jose := Reference.jose) (pwd_context := Reference.passlib)
    (ids := Reference.ids) (traceback := MoreSamples.traceback)
    MoreSamples.broken_settings MoreSamples.anonymous_request "a@x.com"
    "secret1" "salt" 1000 [] =
    (Ok (PlainTextResponse "Traceback (most recent call last):" 500
           "text/plain"),
     [MoreSamples.ada_row_broken]).
Proof.
  split; [| split].
  - apply (proj1 (proj2 (proj2 (signup_submit_never_raises
             (jose := Reference.jose) (pwd_context := Reference.passlib)
             (ids := Reference.ids) (traceback := MoreSamples.traceback)
             Reference.settings MoreSamples.anonymous_request
             "a@x.com" "secret2" "pepper" 2000 Samples.one_user)))
           Samples.ada_row).
    + left. reflexivity.
    + reflexivity.
  - apply (proj1 (proj2 (proj2 (proj2 (signup_submit_never_raises
             (jose := Reference.jose) (pwd_context := Reference.passlib)
             (ids := Reference.ids) (traceback := MoreSamples.traceback)
             Reference.settings MoreSamples.anonymous_request
             "a@x.com" "secret1" "salt" 1000 []))))
           Samples.ada_token Samples.one_user).
    vm_compute. reflexivity.
  - destruct (proj2 (proj2 (proj2 (proj2 (signup_submit_never_raises
             (jose := Reference.jose) (pwd_context := Reference.passlib)
             (ids := Reference.ids) (traceback := MoreSamples.traceback)
             MoreSamples.broken_settings MoreSamples.anonymous_request
             "a@x.com" "secret1" "salt" 1000 []))))
           (JWSError "Algorithm not supported.")
           [MoreSamples.ada_row_broken])
      as [[Habs _] | Hresp].
    + vm_compute. reflexivity.
    + discriminate Habs.
    + exact Hresp.
Defined.


Lemma hasher_exception_reaches_caller_witness :
  signin (jose := Reference.jose) (pwd_context := Reference.passlib)
    Reference.settings
    {| signin_email := "a@x.com"; signin_password := "secret1" |}
    2000 Samples.corrupt_user =
    (Raise (ValueError "hash could not be identified"),
     Samples.corrupt_user) /\
  login_submit (jose := Reference.jose) (pwd_context := Reference.passlib)
    Reference.settings MoreSamples.anonymous_request "a@x.com" "secret1"
    2000 Samples.corrupt_user =
    (Raise (ValueError "hash could not be identified"),
     Samples.corrupt_user).
Proof.
  apply (hasher_exception_reaches_caller (jose := Reference.jose)
           (pwd_context := Reference.passlib) Reference.settings
           MoreSamples.anonymous_request "a@x.com" "secret1" 2000
           Samples.corrupt_user
           {| User.id := "user-9"; User.email := "a@x.com";
              User.password_hash := None;
              User.passwordHash := Some "corrupt" |}
           "corrupt" (ValueError "hash could not be identified"));
    reflexivity.
Defined.
